(** * Expense Tracker: a verified model of [tracker_2.py]

    The program is a single PyQt5 window class, [ExpenseTracker], whose
    methods are the handlers of its buttons and of a one-second timer.  The
    ledger is the Python list [self.expenses]; everything else is widget
    state, or an effect on the outside world (message boxes, the figure
    window, the file written by pandas).

    The development follows the program top-down:

    - [Py]      the Python builtins the handlers call ([str.strip], [float],
                the [.2f] format, insertion-ordered [dict]);
    - [Qt]      the widgets' observable state and the two clock formats;
    - [Pandas], [Pyplot]  the table handed to [to_excel], the figure shown;
    - the class itself: its fields, [__init__] and the handlers, written in
      a small state-and-exception monad;
    - the event loop, and the properties of the ledger.

    A [str] is a Rocq [string] holding the text's UTF-8 encoding, so that
    [strip] and [float] see the same characters as Python does: the
    blanks and the decimal digits of every script.  A Python [float] is a
    binary64 number, here Rocq's primitive [float]. *)

From Stdlib Require Import ZArith NArith List String Ascii Bool Lia.
From Stdlib Require Import DecimalString Floats.
Import ListNotations.

Set Warnings "-inexact-float".

Local Open Scope string_scope.
Local Open Scope list_scope.

(* ================================================================= *)
(** ** Python builtins *)

Module Py.

(** *** Characters

    A [str] is held as its UTF-8 encoding.  [chars] reads the bytes back
    into characters, each a code point together with the bytes that
    encode it; bytes that encode nothing count as a character that is
    neither a blank nor a digit. *)

Definition ord (c : ascii) : nat := nat_of_ascii c.

Definition between (lo hi : nat) (c : ascii) : bool :=
  (lo <=? ord c)%nat && (ord c <=? hi)%nat.

Definition is_digit (c : ascii) : bool := between 48 57 c.

Definition char : Type := N * list ascii.

Definition no_character : N := 1114112.

(** The decoder's state: the characters read so far, last first, and the
    sequence being read: continuation bytes still due, bits gathered, and
    bytes taken. *)
Record decoder : Type := {
  decoded : list char;
  partial : option (nat * N * list ascii)
}.

Definition emit (c : char) (chars_so_far : list char) : decoder :=
  {| decoded := c :: chars_so_far; partial := None |}.

Definition broken (bytes : list ascii) (chars_so_far : list char) : list char :=
  map (fun b => (no_character, [b])) (rev bytes) ++ chars_so_far.

(** A byte that starts a character. *)
Definition first_byte (b : ascii) (chars_so_far : list char) : decoder :=
  let n := N_of_ascii b in
  if (n <? 128)%N then emit (n, [b]) chars_so_far
  else if (192 <=? n)%N && (n <? 224)%N then
    {| decoded := chars_so_far; partial := Some (1%nat, (n - 192)%N, [b]) |}
  else if (224 <=? n)%N && (n <? 240)%N then
    {| decoded := chars_so_far; partial := Some (2%nat, (n - 224)%N, [b]) |}
  else if (240 <=? n)%N && (n <? 248)%N then
    {| decoded := chars_so_far; partial := Some (3%nat, (n - 240)%N, [b]) |}
  else emit (no_character, [b]) chars_so_far.

Definition decode_byte (d : decoder) (b : ascii) : decoder :=
  let n := N_of_ascii b in
  match partial d with
  | Some (S due, bits, bytes) =>
      if (128 <=? n)%N && (n <? 192)%N then
        let bits := (bits * 64 + (n - 128))%N in
        match due with
        | O => emit (bits, bytes ++ [b]) (decoded d)
        | S _ => {| decoded := decoded d;
                    partial := Some (due, bits, bytes ++ [b]) |}
        end
      else first_byte b (broken bytes (decoded d))
  | _ => first_byte b (decoded d)
  end.

Definition chars (s : list ascii) : list char :=
  let d := fold_left decode_byte s {| decoded := []; partial := None |} in
  rev (match partial d with
       | Some (_, _, bytes) => broken bytes (decoded d)
       | None => decoded d
       end).

Definition encode (cs : list char) : list ascii := List.concat (map snd cs).

(** [str.isspace] of one character ([Py_UNICODE_ISSPACE]): the
    characters of category Zs or of bidirectional class WS, B or S. *)
Definition isspace (c : N) : bool :=
  ((9 <=? c) && (c <=? 13) || (28 <=? c) && (c <=? 32)
   || (c =? 133) || (c =? 160) || (c =? 5760)
   || (8192 <=? c) && (c <=? 8202) || (c =? 8232) || (c =? 8233)
   || (c =? 8239) || (c =? 8287) || (c =? 12288))%N.

(** The code points of the digit zero of every script with decimal
    digits (general category Nd, Unicode 14.0, the database of CPython
    3.11); the nine that follow each are its digits one to nine. *)
Definition decimal_zeros : list N :=
  [48; 1632; 1776; 1984; 2406; 2534; 2662; 2790; 2918; 3046; 3174; 3302;
   3430; 3558; 3664; 3792; 3872; 4160; 4240; 6112; 6160; 6470; 6608; 6784;
   6800; 6992; 7088; 7232; 7248; 42528; 43216; 43264; 43472; 43504; 43600;
   44016; 65296; 66720; 68912; 69734; 69872; 69942; 70096; 70384; 70736;
   70864; 71248; 71360; 71472; 71904; 72016; 72784; 73040; 73120; 92768;
   92864; 93008; 120782; 120792; 120802; 120812; 120822; 123200; 123632;
   125264; 130032]%N.

(** [Py_UNICODE_TODECIMAL] *)
Definition to_decimal (c : N) : option N :=
  match find (fun z => (z <=? c) && (c <? z + 10))%N decimal_zeros with
  | Some z => Some (c - z)%N
  | None => None
  end.

(** The C-locale blanks [float] skips around a number ([Py_ISSPACE]):
    the separators 28..31 are not among them. *)
Definition is_c_space (c : ascii) : bool :=
  between 9 13 c || (ord c =? 32)%nat.

Definition lower (c : ascii) : ascii :=
  if between 65 90 c then ascii_of_nat (ord c + 32) else c.

(** *** [str.strip()] *)

Fixpoint lstrip_with {A : Type} (sp : A -> bool) (s : list A) : list A :=
  match s with
  | [] => []
  | c :: s' => if sp c then lstrip_with sp s' else s
  end.

Definition strip_with {A : Type} (sp : A -> bool) (s : list A) : list A :=
  rev (lstrip_with sp (rev (lstrip_with sp s))).

Definition strip (s : string) : string :=
  string_of_list_ascii
    (encode (strip_with (fun c : char => isspace (fst c))
                        (chars (list_ascii_of_string s)))).

(** Truth value of a [str]: [not s] holds exactly for the empty one. *)
Definition truthy (s : string) : bool :=
  match s with EmptyString => false | String _ _ => true end.

(** *** [float(str)]

    [None] stands for the [ValueError] the builtin raises.  The steps are
    CPython's: blanks and decimal digits of other scripts are brought to
    ASCII; underscores may only stand between two digits and are
    dropped; blanks are skipped at both ends; what is left must be, in
    full, a signed decimal literal or one of [inf], [infinity], [nan] in
    any letter case; the decimal value is rounded to the nearest binary64
    number, ties to even, overflowing to an infinity. *)

Fixpoint drop_underscores (prev : ascii) (s : list ascii)
  : option (list ascii) :=
  match s with
  | [] => if Ascii.eqb prev "_" then None else Some []
  | c :: s' =>
      if Ascii.eqb c "_" then
        if is_digit prev then drop_underscores c s' else None
      else if Ascii.eqb prev "_" && negb (is_digit c) then None
      else option_map (cons c) (drop_underscores c s')
  end.

Fixpoint span_digits (s : list ascii) : list ascii * list ascii :=
  match s with
  | c :: s' =>
      if is_digit c then
        let (ds, rest) := span_digits s' in (c :: ds, rest)
      else ([], s)
  | [] => ([], [])
  end.

Definition digit_value (c : ascii) : Z := Z.of_nat (ord c - 48).

Definition Z_of_digits (ds : list ascii) : Z :=
  fold_left (fun acc c => 10 * acc + digit_value c)%Z ds 0%Z.

(** An optional sign: is it a minus, and what follows it. *)
Definition take_sign (s : list ascii) : bool * list ascii :=
  match s with
  | c :: s' =>
      if Ascii.eqb c "-" then (true, s')
      else if Ascii.eqb c "+" then (false, s')
      else (false, s)
  | [] => (false, [])
  end.

(** The exponent part, which must reach the end of the text. *)
Definition exponent (s : list ascii) : option Z :=
  match s with
  | [] => Some 0%Z
  | c :: s' =>
      if Ascii.eqb (lower c) "e" then
        let (neg, s'') := take_sign s' in
        match span_digits s'' with
        | ((_ :: _) as ds, []) =>
            Some (if neg then - Z_of_digits ds else Z_of_digits ds)%Z
        | _ => None
        end
      else None
  end.

(** A decimal literal as the pair [(m, e)] standing for [m * 10^e]. *)
Definition decimal (s : list ascii) : option (Z * Z) :=
  let (int_part, rest) := span_digits s in
  let (frac_part, rest) :=
    match rest with
    | c :: rest' =>
        if Ascii.eqb c "." then span_digits rest' else ([], rest)
    | [] => ([], [])
    end in
  match int_part ++ frac_part with
  | [] => None
  | ds =>
      match exponent rest with
      | Some e => Some (Z_of_digits ds, (e - Z.of_nat (List.length frac_part))%Z)
      | None => None
      end
  end.

(** The binary64 number nearest to [num / den] ([num], [den] positive):
    the quotient is taken with at least 64 significant bits and a sticky
    bit for the remainder, then rounded once, ties to even. *)
Definition nearest_float (neg : bool) (num den : Z) : float :=
  let s := Z.max 0 (Z.log2 den + 66 - Z.log2 num) in
  let n := (num * 2 ^ s)%Z in
  let m := (2 * (n / den) + (if (n mod den =? 0)%Z then 0 else 1))%Z in
  SF2Prim (binary_normalize prec emax (if neg then - m else m)%Z
                            (- s - 1)%Z neg).

Definition float_of_decimal (neg : bool) (m e : Z) : float :=
  if (m =? 0)%Z then (if neg then neg_zero else zero)
  else if (0 <=? e)%Z then nearest_float neg (m * 10 ^ e) 1
  else nearest_float neg m (10 ^ (- e)).

Definition special (neg : bool) (s : list ascii) : option float :=
  let word := string_of_list_ascii (map lower s) in
  if String.eqb word "inf" || String.eqb word "infinity" then
    Some (if neg then neg_infinity else infinity)
  else if String.eqb word "nan" then Some nan
  else None.

(** What [float] does to the text first
    ([_PyUnicode_TransformDecimalAndSpaceToASCII]): a text that is all
    ASCII is taken as it is; in any other, a blank becomes a space and a
    decimal digit of any script its ASCII digit, and the text is cut
    short after a question mark at the first character that is neither
    (nor below 127). *)
Fixpoint to_ascii (cs : list char) : list ascii :=
  match cs with
  | [] => []
  | (c, _) :: cs' =>
      if (c <? 127)%N then ascii_of_N c :: to_ascii cs'
      else if isspace c then " "%char :: to_ascii cs'
      else match to_decimal c with
           | Some d => ascii_of_N (48 + d) :: to_ascii cs'
           | None => ["?"%char]
           end
  end.

Definition transform (s : list ascii) : list ascii :=
  if forallb (fun b => (N_of_ascii b <? 128)%N) s then s
  else to_ascii (chars s).

Definition float (text : string) : option float :=
  match drop_underscores Ascii.zero (transform (list_ascii_of_string text)) with
  | None => None
  | Some s =>
      let (neg, body) := take_sign (strip_with is_c_space s) in
      match decimal body with
      | Some (m, e) => Some (float_of_decimal neg m e)
      | None => special neg body
      end
  end.

(** *** [format(x, ".2f")]

    The exact binary value is rounded to two decimals, ties to even, and
    printed in positional notation; the sign is kept on a result that
    rounds to zero. *)

Definition decimal_digits (n : Z) : string :=
  NilZero.string_of_uint (N.to_uint (Z.to_N n)).

Definition zero_padded (width : nat) (n : Z) : string :=
  let ds := decimal_digits n in
  string_of_list_ascii (repeat "0"%char (width - String.length ds)) ++ ds.

Definition round_half_even (num den : Z) : Z :=
  let q := (num / den)%Z in
  let twice := (2 * (num mod den))%Z in
  if (twice <? den)%Z then q
  else if (den <? twice)%Z then (q + 1)%Z
  else if Z.even q then q else (q + 1)%Z.

Definition minus_sign (neg : bool) : string := if neg then "-" else "".

Definition format_2f (x : PrimFloat.float) : string :=
  match Prim2SF x with
  | S754_nan => "nan"
  | S754_infinity neg => minus_sign neg ++ "inf"
  | S754_zero neg => minus_sign neg ++ "0.00"
  | S754_finite neg m e =>
      let hundredths :=
        if (0 <=? e)%Z then (Zpos m * 2 ^ e * 100)%Z
        else round_half_even (Zpos m * 100) (2 ^ (- e)) in
      minus_sign neg ++ decimal_digits (hundredths / 100) ++ "."
        ++ zero_padded 2 (hundredths mod 100)
  end.

(** *** [dict] with [str] keys

    A Python [dict] keeps its keys in insertion order, and assigning to a
    key that is present keeps the key's place. *)

Definition dict (V : Type) : Type := list (string * V).

Section Dict.
Context {V : Type}.

Fixpoint lookup (d : dict V) (k : string) : option V :=
  match d with
  | [] => None
  | (k', v) :: d' => if String.eqb k' k then Some v else lookup d' k
  end.

(** [d.get(k, default)] *)
Definition get (d : dict V) (k : string) (default : V) : V :=
  match lookup d k with Some v => v | None => default end.

(** [d[k] = v] *)
Fixpoint setitem (d : dict V) (k : string) (v : V) : dict V :=
  match d with
  | [] => [(k, v)]
  | (k', v') :: d' =>
      if String.eqb k' k then (k', v) :: d'
      else (k', v') :: setitem d' k v
  end.

Definition keys (d : dict V) : list string := map fst d.
Definition values (d : dict V) : list V := map snd d.
End Dict.

(** [sum(xs)] over floats: the running total starts from the integer [0],
    which the first addition converts to [0.0]. *)
Definition sum (xs : list PrimFloat.float) : PrimFloat.float :=
  fold_left PrimFloat.add xs zero.

(** *** Exceptions *)

Inductive exn : Type :=
| ValueError
| OSError                       (* [IOError] is an alias of it *)
| Exception (name : string).    (* any other class *)

Definition exn_eqb (a b : exn) : bool :=
  match a, b with
  | ValueError, ValueError | OSError, OSError => true
  | Exception n, Exception n' => String.eqb n n'
  | _, _ => false
  end.

End Py.

(* ================================================================= *)
(** ** The toolkit: widgets, message boxes, clock *)

Module Qt.

(** A [QLabel] or a [QLineEdit], as far as the program looks at it: its
    text, and whether [hide()] was called on it last. *)
Record TextWidget : Type := { text : string; hidden : bool }.

Definition QLabel := TextWidget.
Definition QLineEdit := TextWidget.

Definition widget (s : string) : TextWidget := {| text := s; hidden := false |}.
Definition setText (s : string) (w : TextWidget) : TextWidget :=
  {| text := s; hidden := hidden w |}.
Definition clear : TextWidget -> TextWidget := setText "".
Definition hide (w : TextWidget) : TextWidget :=
  {| text := text w; hidden := true |}.
Definition show (w : TextWidget) : TextWidget :=
  {| text := text w; hidden := false |}.

(** A non-editable [QComboBox]. *)
Record QComboBox : Type := { items : list string; currentIndex : nat }.

Definition count (cb : QComboBox) : nat := List.length (items cb).
Definition itemText (cb : QComboBox) (i : nat) : string := nth i (items cb) "".
Definition currentText (cb : QComboBox) : string := itemText cb (currentIndex cb).

(** [addItem] appends; on a box that already has items the selection
    stays where it is. *)
Definition addItem (s : string) (cb : QComboBox) : QComboBox :=
  {| items := items cb ++ [s]; currentIndex := currentIndex cb |}.

(** [addItems] on the empty box selects the first item. *)
Definition addItems (l : list string) : QComboBox :=
  {| items := l; currentIndex := 0 |}.

Definition setCurrentIndex (i : nat) (cb : QComboBox) : QComboBox :=
  {| items := items cb; currentIndex := i |}.

(** A [QTableWidget]: a cell holds an item's text, or no item. *)
Record QTableWidget : Type := {
  columnCount : nat;
  horizontalHeaderLabels : list string;
  cells : list (list (option string))
}.

Definition rowCount (t : QTableWidget) : nat := List.length (cells t).

Definition with_cells (f : list (list (option string)) -> list (list (option string)))
           (t : QTableWidget) : QTableWidget :=
  {| columnCount := columnCount t;
     horizontalHeaderLabels := horizontalHeaderLabels t;
     cells := f (cells t) |}.

Fixpoint update {A : Type} (n : nat) (f : A -> A) (l : list A) : list A :=
  match l, n with
  | [], _ => []
  | x :: l', O => f x :: l'
  | x :: l', S n' => x :: update n' f l'
  end.

(** [insertRow(row)]: a row of empty cells; nothing when [row] is past
    the end. *)
Definition insertRow (row : nat) (t : QTableWidget) : QTableWidget :=
  if (row <=? rowCount t)%nat then
    with_cells (fun cs => firstn row cs ++ repeat None (columnCount t)
                                 :: skipn row cs) t
  else t.

(** [setItem(row, column, QTableWidgetItem(s))]: nothing outside the
    table. *)
Definition setItem (row column : nat) (s : string) (t : QTableWidget)
  : QTableWidget :=
  with_cells (update row (update column (fun _ => Some s))) t.

(** A message box the user was shown. *)
Inductive Icon : Type := Warning | Information.
Record QMessageBox : Type := { icon : Icon; title : string; message : string }.

(** Clock readings and the two display formats the program asks for. *)
Record QDate : Type := { year : nat; month : nat; day : nat }.
Record QTime : Type := { hour : nat; minute : nat; second : nat }.
Record QDateTime : Type := { date : QDate; time : QTime }.

Definition padded (width n : nat) : string := Py.zero_padded width (Z.of_nat n).

(** [QDate.toString("dd/MM/yyyy")] *)
Definition dd_MM_yyyy (d : QDate) : string :=
  padded 2 (day d) ++ "/" ++ padded 2 (month d) ++ "/" ++ padded 4 (year d).

(** [QDateTime.toString("HH:mm:ss")] *)
Definition HH_mm_ss (t : QDateTime) : string :=
  padded 2 (hour (time t)) ++ ":" ++ padded 2 (minute (time t)) ++ ":"
    ++ padded 2 (second (time t)).

End Qt.

(* ================================================================= *)
(** ** The table pandas writes, the figure pyplot shows *)

Module Pandas.

Inductive scalar : Type :=
| Float (x : float)
| Str (s : string).

Record DataFrame : Type := {
  columns : list string;
  rows : list (list scalar)
}.

(** Columns of a frame built from records: every key, in the order in
    which the keys first appear. *)
Definition add_keys (cols : list string) (record : Py.dict scalar)
  : list string :=
  fold_left (fun cols k =>
               if existsb (String.eqb k) cols then cols else cols ++ [k])
            (Py.keys record) cols.

(** [pd.DataFrame(records)] for a list of dicts; a record that lacks a
    column has NaN there. *)
Definition of_records (records : list (Py.dict scalar)) : DataFrame :=
  let cols := fold_left add_keys records [] in
  {| columns := cols;
     rows := map (fun r => map (fun c => Py.get r c (Float nan)) cols)
                 records |}.

(** The frame laid out as [to_excel(index=False)] lays it out: one header
    row with the column labels, then one row per record, the values still
    those of the frame. *)
Definition Sheet : Type := list (list scalar).

Definition sheet_of (df : DataFrame) : Sheet :=
  map Str (columns df) :: rows df.

(** A cell of the workbook that is written. *)
Inductive cell : Type :=
| Number (x : float)
| Text (s : string)
| Empty.

(** A text value: the writer leaves an empty cell for the empty text. *)
Definition text_cell (s : string) : cell :=
  match s with
  | EmptyString => Empty
  | _ => Text s
  end.

(** How the Excel formatter renders a value (with the defaults
    [na_rep=''], [inf_rep='inf'], no [float_format]): NaN as the empty
    text, an infinity as the text [inf] or [-inf], any other number as
    itself. *)
Definition excel_cell (v : scalar) : cell :=
  match v with
  | Str s => text_cell s
  | Float x =>
      if is_nan x then text_cell ""
      else if (x =? infinity)%float then text_cell "inf"
      else if (x =? neg_infinity)%float then text_cell "-inf"
      else Number x
  end.

(** What [df.to_excel(path, index=False)] puts in the file. *)
Definition Workbook : Type := list (list cell).

Definition workbook_of (df : DataFrame) : Workbook :=
  map (map excel_cell) (sheet_of df).

End Pandas.

Module Pyplot.

Record Figure : Type := {
  figsize : float * float;
  wedges : list float;
  labels : list string;
  autopct : string;
  startangle : Z;
  shadow : bool;
  title : string
}.

Definition blank (size : float * float) : Figure :=
  {| figsize := size; wedges := []; labels := []; autopct := "";
     startangle := 0; shadow := false; title := "" |}.

(** A figure pyplot keeps open, and whether its window is on screen. *)
Record Window : Type := { drawn : Figure; on_screen : bool }.

(** pyplot's global state: the open figures, oldest first; the last one
    is the current figure. *)
Definition State : Type := list Window.

Definition open (p : State) : list Figure := map drawn p.
Definition shown (p : State) : list Figure := map drawn (filter on_screen p).

(** [figure(figsize=...)]: a new current figure, not on screen yet. *)
Definition figure (size : float * float) (p : State) : State :=
  p ++ [{| drawn := blank size; on_screen := false |}].

(** Draw on the current figure, making one of the default size when none
    is open. *)
Definition on_current (f : Figure -> Figure) (p : State) : State :=
  match rev p with
  | [] => [{| drawn := f (blank (6.4, 4.8)%float); on_screen := false |}]
  | cur :: before =>
      rev before ++ [{| drawn := f (drawn cur); on_screen := on_screen cur |}]
  end.

Definition pie (x : list float) (l : list string) (pct : string)
           (angle : Z) (sh : bool) : State -> State :=
  on_current (fun fig =>
    {| figsize := figsize fig; wedges := x; labels := l; autopct := pct;
       startangle := angle; shadow := sh; title := title fig |}).

Definition set_title (s : string) : State -> State :=
  on_current (fun fig =>
    {| figsize := figsize fig; wedges := wedges fig; labels := labels fig;
       autopct := autopct fig; startangle := startangle fig;
       shadow := shadow fig; title := s |}).

(** [show()] called while the toolkit's event loop is already running:
    every open figure gets its window on screen and the call returns;
    the figures stay open. *)
Definition show (p : State) : State :=
  map (fun w => {| drawn := drawn w; on_screen := true |}) p.

(** The user closes the window of the [n]-th open figure, which closes
    the figure. *)
Definition close (n : nat) (p : State) : State :=
  match nth_error p n with
  | Some w => if on_screen w then firstn n p ++ skipn (S n) p else p
  | None => p
  end.

End Pyplot.

(* ================================================================= *)
(** ** The program's state *)

(** One entry of [self.expenses]: the dict
    [{"amount": amount, "category": category, "date": date, "time": time}]. *)
Record expense : Type := {
  amount : float;
  category : string;
  date : string;
  time : string
}.

(** The entry as pandas sees it: its keys, in the order the dict literal
    lists them, with their values. *)
Definition expense_items (e : expense) : Py.dict Pandas.scalar :=
  [("amount", Pandas.Float (amount e)); ("category", Pandas.Str (category e));
   ("date", Pandas.Str (date e)); ("time", Pandas.Str (time e))].

(** The attributes of [self] the handlers read or write. *)
Record ExpenseTracker : Type := {
  amount_input : Qt.QLineEdit;
  category_input : Qt.QComboBox;
  custom_category_label : Qt.QLabel;
  custom_category_input : Qt.QLineEdit;
  date_input : Qt.QLabel;
  time_input : Qt.QLabel;
  table : Qt.QTableWidget;
  expenses : list expense
}.

Definition set_amount_input f (s : ExpenseTracker) : ExpenseTracker :=
  {| amount_input := f (amount_input s); category_input := category_input s;
     custom_category_label := custom_category_label s;
     custom_category_input := custom_category_input s;
     date_input := date_input s; time_input := time_input s;
     table := table s; expenses := expenses s |}.

Definition set_category_input f (s : ExpenseTracker) : ExpenseTracker :=
  {| amount_input := amount_input s; category_input := f (category_input s);
     custom_category_label := custom_category_label s;
     custom_category_input := custom_category_input s;
     date_input := date_input s; time_input := time_input s;
     table := table s; expenses := expenses s |}.

Definition set_custom_category_label f (s : ExpenseTracker) : ExpenseTracker :=
  {| amount_input := amount_input s; category_input := category_input s;
     custom_category_label := f (custom_category_label s);
     custom_category_input := custom_category_input s;
     date_input := date_input s; time_input := time_input s;
     table := table s; expenses := expenses s |}.

Definition set_custom_category_input f (s : ExpenseTracker) : ExpenseTracker :=
  {| amount_input := amount_input s; category_input := category_input s;
     custom_category_label := custom_category_label s;
     custom_category_input := f (custom_category_input s);
     date_input := date_input s; time_input := time_input s;
     table := table s; expenses := expenses s |}.

Definition set_time_input f (s : ExpenseTracker) : ExpenseTracker :=
  {| amount_input := amount_input s; category_input := category_input s;
     custom_category_label := custom_category_label s;
     custom_category_input := custom_category_input s;
     date_input := date_input s; time_input := f (time_input s);
     table := table s; expenses := expenses s |}.

Definition set_table f (s : ExpenseTracker) : ExpenseTracker :=
  {| amount_input := amount_input s; category_input := category_input s;
     custom_category_label := custom_category_label s;
     custom_category_input := custom_category_input s;
     date_input := date_input s; time_input := time_input s;
     table := f (table s); expenses := expenses s |}.

Definition set_expenses f (s : ExpenseTracker) : ExpenseTracker :=
  {| amount_input := amount_input s; category_input := category_input s;
     custom_category_label := custom_category_label s;
     custom_category_input := custom_category_input s;
     date_input := date_input s; time_input := time_input s;
     table := table s; expenses := f (expenses s) |}.

(** The window together with what its handlers do to the outside: the
    message boxes shown so far (oldest first), pyplot's figures, and the
    workbooks on disk, each under the name the file system knows it
    by. *)
Record World : Type := {
  self : ExpenseTracker;
  message_boxes : list Qt.QMessageBox;
  plt : Pyplot.State;
  files : Py.dict Pandas.Workbook
}.

(** What the two libraries refuse, and how the file system reads a path.
    [to_excel_error path] is the exception [to_excel] raises when asked
    to write there ([OSError] for a destination that cannot be written),
    [pie_error x] the one [plt.pie] raises for those wedge sizes; [None]
    when the call goes through.  [realpath path] is the one name of the
    file that [path] leads to, whatever its spelling and the links on the
    way. *)
Record Env : Type := {
  to_excel_error : string -> option Py.exn;
  pie_error : list float -> option Py.exn;
  realpath : string -> string
}.

(* ----------------------------------------------------------------- *)
(** *** Handlers run in a state-and-exception monad *)

Inductive outcome (A : Type) : Type :=
| Returned (a : A)
| Raised (e : Py.exn).
Arguments Returned {A} a.
Arguments Raised {A} e.

Definition M (A : Type) : Type := World -> outcome A * World.

Definition ret {A : Type} (a : A) : M A := fun w => (Returned a, w).
Definition raise {A : Type} (e : Py.exn) : M A := fun w => (Raised e, w).

Definition bind {A B : Type} (m : M A) (k : A -> M B) : M B :=
  fun w => match m w with
           | (Returned a, w') => k a w'
           | (Raised e, w') => (Raised e, w')
           end.

(** [try: body except cls: handler].  What [body] did before it raised
    stays done. *)
Definition try_except {A : Type} (body : M A) (cls : Py.exn) (handler : M A)
  : M A :=
  fun w => match body w with
           | (Raised e, w') =>
               if Py.exn_eqb e cls then handler w' else (Raised e, w')
           | r => r
           end.

Declare Scope monad_scope.
Delimit Scope monad_scope with monad.
Notation "x <- m ;; k" := (bind m (fun x => k))
  (at level 61, m at next level, right associativity) : monad_scope.
Notation "m ;; k" := (bind m (fun _ => k))
  (at level 61, right associativity) : monad_scope.
Local Open Scope monad_scope.

Definition get_self : M ExpenseTracker := fun w => (Returned (self w), w).

Definition modify_self (f : ExpenseTracker -> ExpenseTracker) : M unit :=
  fun w => (Returned tt,
            {| self := f (self w); message_boxes := message_boxes w;
               plt := plt w; files := files w |}).

Definition modify_plt (f : Pyplot.State -> Pyplot.State) : M unit :=
  fun w => (Returned tt,
            {| self := self w; message_boxes := message_boxes w;
               plt := f (plt w); files := files w |}).

Definition message_box (i : Qt.Icon) (title text : string) : M unit :=
  fun w => (Returned tt,
            {| self := self w;
               message_boxes := message_boxes w ++
                 [{| Qt.icon := i; Qt.title := title; Qt.message := text |}];
               plt := plt w; files := files w |}).

(** [QMessageBox.warning(self, title, text)] and
    [QMessageBox.information(self, title, text)] *)
Definition QMessageBox_warning := message_box Qt.Warning.
Definition QMessageBox_information := message_box Qt.Information.

(** [float(text)], raising [ValueError] *)
Definition float_of (text : string) : M float :=
  match Py.float text with
  | Some x => ret x
  | None => raise Py.ValueError
  end.

(** The state a handler leaves behind, whether it returned or raised. *)
Definition exec {A : Type} (m : M A) (w : World) : World := snd (m w).

(* ================================================================= *)
(** ** class ExpenseTracker *)

Definition rupee : string := "₹".

(** [__init__], given the two clock readings it takes. *)
Definition __init__ (today : Qt.QDate) (now : Qt.QDateTime) : ExpenseTracker :=
  {| amount_input := Qt.widget "";
     category_input :=
       Qt.addItems ["Food"; "Travel"; "Utilities"; "Entertainment"; "Others"];
     custom_category_label := Qt.hide (Qt.widget "Custom Category:");
     custom_category_input := Qt.hide (Qt.widget "");
     date_input := Qt.widget (Qt.dd_MM_yyyy today);
     time_input := Qt.widget (Qt.HH_mm_ss now);
     table := {| Qt.columnCount := 4;
                 Qt.horizontalHeaderLabels := ["Amount"; "Category"; "Date"; "Time"];
                 Qt.cells := [] |};
     expenses := [] |}.

(** Show or hide custom category input based on selection. *)
Definition toggle_custom_category (category : string) : M unit :=
  if String.eqb category "Others" then
    modify_self (set_custom_category_label Qt.show) ;;
    modify_self (set_custom_category_input Qt.show)
  else
    modify_self (set_custom_category_label Qt.hide) ;;
    modify_self (set_custom_category_input Qt.hide) ;;
    modify_self (set_custom_category_input Qt.clear).

(** The texts of the dropdown, as the list comprehension builds them:
    [[itemText(i) for i in range(count())]]. *)
Definition item_texts (cb : Qt.QComboBox) : list string :=
  map (Qt.itemText cb) (seq 0 (Qt.count cb)).

(** [s in l] *)
Definition str_in (s : string) (l : list string) : bool :=
  existsb (String.eqb s) l.

(** The part of [add_expense] after the category is settled: read the two
    clock labels, append to the list, add the table row, clear the
    inputs. *)
Definition store_expense (amount : float) (category : string) : M unit :=
  s <- get_self ;;
  let date := Qt.text (date_input s) in
  let time := Qt.text (time_input s) in
  modify_self (set_expenses (fun l =>
    l ++ [{| amount := amount; category := category;
             date := date; time := time |}])) ;;
  let row := Qt.rowCount (table s) in
  modify_self (set_table (Qt.insertRow row)) ;;
  modify_self (set_table (Qt.setItem row 0 (rupee ++ Py.format_2f amount))) ;;
  modify_self (set_table (Qt.setItem row 1 category)) ;;
  modify_self (set_table (Qt.setItem row 2 date)) ;;
  modify_self (set_table (Qt.setItem row 3 time)) ;;
  modify_self (set_amount_input Qt.clear) ;;
  modify_self (set_custom_category_input Qt.clear).

(** Add an expense to the table and list. *)
Definition add_expense : M unit :=
  try_except
    (s <- get_self ;;
     amount <- float_of (Qt.text (amount_input s)) ;;
     let category := Qt.currentText (category_input s) in
     if String.eqb category "Others" then
       let custom_category := Py.strip (Qt.text (custom_category_input s)) in
       if negb (Py.truthy custom_category) then
         QMessageBox_warning "Input Error"
           "Please specify a custom category for 'Others'."
       else
         (if negb (str_in custom_category (item_texts (category_input s)))
          then modify_self (set_category_input (Qt.addItem custom_category))
          else ret tt) ;;
         store_expense amount custom_category
     else store_expense amount category)
    Py.ValueError
    (QMessageBox_warning "Input Error" "Please enter a valid amount.").

(** The body of the loop of [generate_report]:
    [categories[category] = categories.get(category, 0) + expense["amount"]].
    The default [0] is an [int]; added to a float it counts as [0.0]. *)
Definition tally (categories : Py.dict float) (expense : expense)
  : Py.dict float :=
  let category := category expense in
  Py.setitem categories category
             (Py.get categories category zero + amount expense)%float.

(** The loop itself: the category totals, as a dict whose keys are in
    order of first appearance. *)
Definition totals_by_category (expenses : list expense) : Py.dict float :=
  fold_left tally expenses [].

(** Update the time label every second. *)
Definition update_time (now : Qt.QDateTime) : M unit :=
  let current_time := Qt.HH_mm_ss now in
  modify_self (set_time_input (Qt.setText current_time)).

Section Handlers.

Variable env : Env.

(** [df.to_excel(file_path, index=False)] *)
Definition to_excel (df : Pandas.DataFrame) (file_path : string) : M unit :=
  fun w => match to_excel_error env file_path with
           | Some e => (Raised e, w)
           | None =>
               (Returned tt,
                {| self := self w; message_boxes := message_boxes w;
                   plt := plt w;
                   files := Py.setitem (files w) (realpath env file_path)
                                       (Pandas.workbook_of df) |})
           end.

(** [plt.pie(x, labels=..., autopct=..., startangle=..., shadow=...)] *)
Definition plt_pie (x : list float) (labels : list string) (autopct : string)
           (startangle : Z) (shadow : bool) : M unit :=
  match pie_error env x with
  | Some e => raise e
  | None => modify_plt (Pyplot.pie x labels autopct startangle shadow)
  end.

(** Save expense data to an Excel file.  [answer] is the path the file
    dialog returns, empty when the user cancels it. *)
Definition save_as_excel (answer : string) : M unit :=
  s <- get_self ;;
  match expenses s with
  | [] => QMessageBox_warning "No Data" "No expenses to save."
  | _ :: _ =>
      let file_path := answer in
      if Py.truthy file_path then
        let df := Pandas.of_records (map expense_items (expenses s)) in
        to_excel df file_path ;;
        QMessageBox_information "Success" "Data saved as Excel successfully!"
      else ret tt
  end.

(** Generate a pie chart for expense categories. *)
Definition generate_report : M unit :=
  s <- get_self ;;
  let categories := totals_by_category (expenses s) in
  match categories with
  | [] => QMessageBox_warning "No Data" "No expenses to generate a report."
  | _ :: _ =>
      let y := Py.keys categories in
      let x := Py.values categories in
      modify_plt (Pyplot.figure (8, 6)%float) ;;
      plt_pie x y "%1.1f%%" 140 true ;;
      modify_plt (Pyplot.set_title "Expense Distribution") ;;
      modify_plt Pyplot.show
  end.

(* --------------------------------------------------------------- *)
(** *** The event loop *)

(** What can happen to the window: the timer fires (with the clock's
    reading), the user edits a field, picks an entry of the dropdown,
    presses one of the three buttons, rewrites a cell of the table (its
    cells are editable, as the toolkit makes them unless told otherwise),
    or closes the window of a figure. *)
Inductive event : Type :=
| Timeout (now : Qt.QDateTime)
| TypeAmount (text : string)
| TypeCustomCategory (text : string)
| SelectCategory (index : nat)
| ClickAddExpense
| ClickSaveAsExcel (answer : string)
| ClickGenerateReport
| EditCell (row column : nat) (text : string)
| CloseFigure (n : nat).

Definition handle (e : event) : M unit :=
  match e with
  | Timeout now => update_time now
  | TypeAmount text => modify_self (set_amount_input (Qt.setText text))
  | TypeCustomCategory text =>
      (* a hidden field takes no input *)
      s <- get_self ;;
      if Qt.hidden (custom_category_input s) then ret tt
      else modify_self (set_custom_category_input (Qt.setText text))
  | SelectCategory index =>
      (* [currentTextChanged] is emitted when the selection moves *)
      s <- get_self ;;
      let cb := category_input s in
      if (index <? Qt.count cb)%nat && negb (index =? Qt.currentIndex cb)%nat
      then
        modify_self (set_category_input (Qt.setCurrentIndex index)) ;;
        toggle_custom_category (Qt.itemText cb index)
      else ret tt
  | ClickAddExpense => add_expense
  | ClickSaveAsExcel answer => save_as_excel answer
  | ClickGenerateReport => generate_report
  | EditCell row column text =>
      modify_self (set_table (Qt.setItem row column text))
  | CloseFigure n => modify_plt (Pyplot.close n)
  end.

(** The window after a sequence of events.  An exception that leaves a
    handler ends that handler; the state it leaves is the next handler's.
    (If the toolkit ends the process instead, the states passed through
    are those of a shorter run.) *)
Definition run (events : list event) (w : World) : World :=
  fold_left (fun w e => exec (handle e) w) events w.

End Handlers.

(** The application just started, with [disk] the workbooks already
    there. *)
Definition launch (today : Qt.QDate) (now : Qt.QDateTime)
           (disk : Py.dict Pandas.Workbook) : World :=
  {| self := __init__ today now; message_boxes := [];
     plt := []; files := disk |}.

(* ================================================================= *)
(** ** Notions the properties are stated with *)

(** The category a click on "Add Expense" would record: the dropdown's
    text, or the trimmed custom name when the dropdown says [Others]. *)
Definition effective_category (s : ExpenseTracker) : string :=
  let category := Qt.currentText (category_input s) in
  if String.eqb category "Others"
  then Py.strip (Qt.text (custom_category_input s))
  else category.

(** The record such a click would append for the amount [a]. *)
Definition new_record (a : float) (s : ExpenseTracker) : expense :=
  {| amount := a; category := effective_category s;
     date := Qt.text (date_input s); time := Qt.text (time_input s) |}.

(** The amounts of the records of one category, in ledger order, and
    their sum as Python's [sum] computes it. *)
Definition amounts_in (c : string) (l : list expense) : list float :=
  map amount (filter (fun e => String.eqb (category e) c) l).

Definition category_sum (c : string) (l : list expense) : float :=
  Py.sum (amounts_in c l).

(** An amount is positive. *)
Definition positive (x : float) : Prop := (0 <? x)%float = true.

(** The rows of the frame that is exported. *)
Definition export_header : list Pandas.scalar :=
  [Pandas.Str "amount"; Pandas.Str "category"; Pandas.Str "date";
   Pandas.Str "time"].

Definition export_row (e : expense) : list Pandas.scalar :=
  [Pandas.Float (amount e); Pandas.Str (category e); Pandas.Str (date e);
   Pandas.Str (time e)].


Definition amount_cell (x : float) : Pandas.cell :=
  Pandas.excel_cell (Pandas.Float x).



(** The table row that displays a record. *)
Definition table_row (e : expense) : list (option string) :=
  [Some (rupee ++ Py.format_2f (amount e))%string; Some (category e);
   Some (date e); Some (time e)].

(** The figure "Generate Report" draws for a ledger. *)
Definition report_figure (l : list expense) : Pyplot.Figure :=
  {| Pyplot.figsize := (8, 6)%float;
     Pyplot.wedges := Py.values (totals_by_category l);
     Pyplot.labels := Py.keys (totals_by_category l);
     Pyplot.autopct := "%1.1f%%";
     Pyplot.startangle := 140;
     Pyplot.shadow := true;
     Pyplot.title := "Expense Distribution" |}.

(** The world with one more message box on screen. *)
Definition notified (i : Qt.Icon) (title text : string) (w : World) : World :=
  exec (message_box i title text) w.

(** The clock reading the time label shows after [events]: the latest
    the timer delivered, or the one taken at construction. *)
Definition last_reading (events : list event) (now : Qt.QDateTime)
  : Qt.QDateTime :=
  fold_left (fun t e => match e with Timeout t' => t' | _ => t end) events now.

(** What happens at some reading of the wall clock: the timer fires, or
    the user does something. *)
Inductive happening : Type :=
| TimerFires
| UserDoes (e : event).

(** The event the window gets: only the timer's handler is handed the
    reading. *)
Definition seen (h : Qt.QDateTime * happening) : event :=
  match snd h with
  | TimerFires => Timeout (fst h)
  | UserDoes e => e
  end.

(** A session told with the wall clock's reading at each step. *)
Definition run_clocked (env : Env) (l : list (Qt.QDateTime * happening))
           (w : World) : World :=
  run env (map seen l) w.

Definition dropdown (w : World) : list string :=
  Qt.items (category_input (self w)).

Definition ledger (w : World) : list expense := expenses (self w).

(* ----------------------------------------------------------------- *)
(** *** A concrete session for the examples *)

Module Demo.

(** Writing under [/proc] is refused; negative wedge sizes are refused;
    every path is the name of its file. *)
Definition env : Env :=
  {| to_excel_error := fun path =>
       if String.prefix "/proc/" path then Some Py.OSError else None;
     pie_error := fun x =>
       if existsb (fun v => (v <? 0)%float) x then Some Py.ValueError
       else None;
     realpath := fun path => path |}.

Definition today : Qt.QDate := {| Qt.year := 2024; Qt.month := 3; Qt.day := 7 |}.

Definition clock (d h m s : nat) : Qt.QDateTime :=
  {| Qt.date := {| Qt.year := 2024; Qt.month := 3; Qt.day := d |};
     Qt.time := {| Qt.hour := h; Qt.minute := m; Qt.second := s |} |}.

Definition started : World := launch today (clock 7 23 59 58) [].

(** A lunch typed in, then logged. *)
Definition lunch_typed : World := run env [TypeAmount "12.5"] started.

Definition one_expense : World := exec add_expense lunch_typed.

(** Something typed that is no number. *)
Definition words_typed : World := run env [TypeAmount "twelve"] started.

(** [Others] picked and a custom name typed, blanks around it. *)
Definition gifts_typed : World :=
  run env [SelectCategory 4; TypeCustomCategory " Gifts "; TypeAmount "40"]
      started.

(** [Others] picked, nothing but blanks typed as its name. *)
Definition blank_custom : World :=
  run env [SelectCategory 4; TypeCustomCategory "   "; TypeAmount "40"]
      started.

Definition spec_example : list expense :=
  map (fun '(a, c) => {| amount := a; category := c;
                         date := "07/03/2024"; time := "12:00:00" |})
      [(100%float, "Food"); (50%float, "Food"); (30%float, "Travel")].

End Demo.

(* ----------------------------------------------------------------- *)
(** *** Notions for the window's invariants *)

(** The entries the dropdown starts with. *)
Definition presets : list string :=
  ["Food"; "Travel"; "Utilities"; "Entertainment"; "Others"].

Definition others_selected (s : ExpenseTracker) : bool :=
  String.eqb (Qt.currentText (category_input s)) "Others".

(** The dropdown after an accepted add: the custom name joins it when
    [Others] is selected and the name is not an entry yet. *)
Definition offered (s : ExpenseTracker) : Qt.QComboBox :=
  if others_selected s
     && negb (str_in (effective_category s) (Qt.items (category_input s)))
  then Qt.addItem (effective_category s) (category_input s)
  else category_input s.

(** What holds of the window between any two events. *)
Record consistent (s : ExpenseTracker) : Prop := {
  selection_valid :
    (Qt.currentIndex (category_input s) < Qt.count (category_input s))%nat;
  presets_kept :
    exists customs, Qt.items (category_input s) = presets ++ customs;
  items_distinct : NoDup (Qt.items (category_input s));
  items_named : Forall (fun name => name <> "") (Qt.items (category_input s));
  custom_input_hidden :
    Qt.hidden (custom_category_input s) = negb (others_selected s);
  custom_label_hidden :
    Qt.hidden (custom_category_label s) = negb (others_selected s);
  hidden_input_empty :
    Qt.hidden (custom_category_input s) = true ->
    Qt.text (custom_category_input s) = ""
}.

(** The distinct elements of a list, in order of first appearance. *)
Fixpoint first_occurrences (l : list string) : list string :=
  match l with
  | [] => []
  | c :: l' =>
      c :: filter (fun c' => negb (String.eqb c' c)) (first_occurrences l')
  end.

(** The sheet "Save as Excel" hands to the writer for a ledger. *)
Definition exported_sheet (l : list expense) : Pandas.Sheet :=
  Pandas.sheet_of (Pandas.of_records (map expense_items l)).

Module Cases.

(** The window opens at 23:59:58 on 7 March; the timer fires when the
    clock reads 23:59:59; the user clicks "Add Expense" when it reads
    00:00:00 on 8 March, before the timer fires again. *)
Definition around_midnight : list (Qt.QDateTime * happening) :=
  [(Demo.clock 7 23 59 59, UserDoes (TypeAmount "3"));
   (Demo.clock 7 23 59 59, TimerFires);
   (Demo.clock 8 0 0 0, UserDoes ClickAddExpense)].

(** [nan] typed as the amount, and added. *)
Definition nan_logged : World :=
  run Demo.env [TypeAmount "nan"; ClickAddExpense] Demo.started.

(** A refund logged as a negative amount: the only total is negative. *)
Definition refund : World :=
  run Demo.env [TypeAmount "-5"; ClickAddExpense] Demo.started.

End Cases.

(* ================================================================= *)
(** ** The builtins on examples *)

Example float_examples :
  map Py.float ["12.5"; " -5 "; "0"; "1_000"; ".5e1"; "0.1"; "1e400"; "-INF"]
  = [Some 12.5%float; Some (-5)%float; Some 0%float; Some 1000%float;
     Some 5%float; Some 0.1%float; Some infinity; Some neg_infinity].
Proof. vm_compute. reflexivity. Qed.

Example float_rejects :
  map Py.float [""; "abc"; "12abc"; "1e"; "."; "1__0"; "_1"; "1 2"; "--1"; "0x10"]
  = repeat None 10.
Proof. vm_compute. reflexivity. Qed.

Example format_2f_examples :
  map Py.format_2f [12.5%float; (-5)%float; 0.125%float; 0.375%float;
                    2.675%float; 1e21%float; (-0.001)%float; nan]
  = ["12.50"; "-5.00"; "0.12"; "0.38"; "2.67"; "1000000000000000000000.00";
     "-0.00"; "nan"].
Proof. vm_compute. reflexivity. Qed.

Example strip_examples :
  map Py.strip [" Gifts "; "   "; ""; "a b"] = ["Gifts"; ""; ""; "a b"].
Proof. reflexivity. Qed.

(** Blanks and digits outside ASCII: a no-break space, an ideographic
    space, Devanagari and fullwidth digits; a zero-width space is no
    blank, a minus sign or a superscript no part of a number. *)
Example unicode_text :
  map Py.strip [" G "; "　"; " Gifts　"; "​G"]
  = ["G"; ""; "Gifts"; "​G"]
  /\ map Py.float ["१२"; " 5 "; "１２.５"; "−5"; "²"]
     = [Some 12%float; Some 5%float; Some 12.5%float; None; None].
Proof. split; vm_compute; reflexivity. Qed.

Example clock_formats :
  Qt.dd_MM_yyyy Demo.today = "07/03/2024"
  /\ Qt.HH_mm_ss (Demo.clock 7 9 5 0) = "09:05:00".
Proof. split; reflexivity. Qed.

(* ================================================================= *)
(** ** Basic facts *)

Lemma truthy_false (s : string) : Py.truthy s = false <-> s = "".
Proof. destruct s; cbn; split; congruence. Qed.

Lemma truthy_true (s : string) : Py.truthy s = true <-> s <> "".
Proof. destruct s; cbn; split; congruence. Qed.

Lemma str_in_In (s : string) (l : list string) : str_in s l = true <-> In s l.
Proof.
  unfold str_in. rewrite existsb_exists. split.
  - intros (x & Hx & E). apply String.eqb_eq in E. now subst.
  - intros H. exists s. split; [assumption | apply String.eqb_refl].
Qed.

(** The list comprehension over the dropdown yields its items. *)
Lemma nth_seq_self {A : Type} (d : A) (pre l : list A) :
  map (fun i => nth i (pre ++ l) d) (seq (List.length pre) (List.length l)) = l.
Proof.
  revert pre. induction l as [|x l IH]; intros pre; [reflexivity|].
  cbn [List.length seq map]. f_equal.
  - rewrite nth_middle. reflexivity.
  - specialize (IH (pre ++ [x])).
    rewrite <- app_assoc, length_app, Nat.add_1_r in IH. exact IH.
Qed.

Lemma item_texts_items (cb : Qt.QComboBox) : item_texts cb = Qt.items cb.
Proof. exact (nth_seq_self "" [] (Qt.items cb)). Qed.

(* ----------------------------------------------------------------- *)
(** *** What [add_expense] does, case by case *)

(** Unfold [add_expense] down to the three tests that decide its path. *)
Ltac open_add_expense :=
  unfold ledger, dropdown, exec, add_expense, try_except, bind, get_self,
    float_of, new_record, effective_category;
  cbv beta iota zeta.

Ltac split_add_expense :=
  open_add_expense;
  destruct (Py.float _) as [?a|] eqn:?Hfloat; cbv beta iota zeta;
  [ unfold ret at 1;
    destruct (String.eqb _ "Others") eqn:?Hothers; cbv beta iota zeta;
    [ destruct (Py.truthy _) eqn:?Hname; cbn [negb]; cbv beta iota zeta;
      [ destruct (str_in _ _) eqn:?Hknown; cbn [negb]; cbv beta iota zeta | ]
    | ]
  | ].

(** [add_expense] never lets an exception out. *)
Lemma add_expense_returns (w : World) : fst (add_expense w) = Returned tt.
Proof. split_add_expense; reflexivity. Qed.

(** Its effect on the ledger. *)
Lemma add_expense_ledger (w : World) :
  ledger (exec add_expense w) =
  match Py.float (Qt.text (amount_input (self w))) with
  | None => ledger w
  | Some a =>
      if String.eqb (Qt.currentText (category_input (self w))) "Others"
         && negb (Py.truthy (Py.strip (Qt.text (custom_category_input (self w)))))
      then ledger w
      else ledger w ++ [new_record a (self w)]
  end.
Proof. split_add_expense; reflexivity. Qed.

(** Its effect on the dropdown. *)
Lemma add_expense_dropdown (w : World) :
  dropdown (exec add_expense w) = dropdown w
  \/ dropdown (exec add_expense w)
     = dropdown w ++ [Py.strip (Qt.text (custom_category_input (self w)))].
Proof. split_add_expense; auto. Qed.

(** The two labels are only read. *)
Lemma add_expense_labels (w : World) :
  date_input (self (exec add_expense w)) = date_input (self w)
  /\ time_input (self (exec add_expense w)) = time_input (self w).
Proof. split_add_expense; auto. Qed.

(** A rejected click changes nothing but the screen. *)
Lemma add_expense_rejected (w : World) :
  Py.float (Qt.text (amount_input (self w))) = None
  \/ (Qt.currentText (category_input (self w)) = "Others"
      /\ Py.strip (Qt.text (custom_category_input (self w))) = "") ->
  exists text, add_expense w = (Returned tt, notified Qt.Warning "Input Error" text w).
Proof.
  intros [H | [Ho Hs]].
  - open_add_expense. rewrite H. eexists. reflexivity.
  - apply String.eqb_eq in Ho. apply truthy_false in Hs.
    split_add_expense; try congruence; eexists; reflexivity.
Qed.

(* ----------------------------------------------------------------- *)
(** *** What the other handlers leave alone *)

Section Frames.

Variable env : Env.

Ltac open_handlers :=
  unfold ledger, dropdown, exec, save_as_excel, generate_report, update_time,
    toggle_custom_category, to_excel, plt_pie, QMessageBox_warning,
    QMessageBox_information, message_box, modify_self, modify_plt, bind,
    get_self, ret, raise;
  cbv beta iota zeta.

(** The window's attributes after "Save as Excel" are those before. *)
Lemma save_as_excel_self (answer : string) (w : World) :
  self (exec (save_as_excel env answer) w) = self w.
Proof.
  open_handlers. destruct (expenses (self w)); [reflexivity|].
  destruct (Py.truthy answer); [|reflexivity].
  destruct (to_excel_error env answer); reflexivity.
Qed.

(** And so are they after "Generate Report". *)
Lemma generate_report_self (w : World) :
  self (exec (generate_report env) w) = self w.
Proof.
  open_handlers. destruct (totals_by_category _); [reflexivity|].
  cbv beta iota zeta. destruct (pie_error env _); reflexivity.
Qed.

(** Every handler but [add_expense] leaves the ledger as it is. *)
Lemma handle_ledger (e : event) (w : World) :
  e <> ClickAddExpense -> ledger (exec (handle env e) w) = ledger w.
Proof.
  intros He. destruct e; try congruence; unfold handle.
  - reflexivity.
  - reflexivity.
  - open_handlers. destruct (Qt.hidden _); reflexivity.
  - open_handlers. destruct (_ && _); [|reflexivity].
    destruct (String.eqb _ "Others"); reflexivity.
  - unfold ledger. now rewrite save_as_excel_self.
  - unfold ledger. now rewrite generate_report_self.
  - reflexivity.
  - reflexivity.
Qed.

(** No handler writes the date label. *)
Lemma handle_date_input (e : event) (w : World) :
  date_input (self (exec (handle env e) w)) = date_input (self w).
Proof.
  destruct e; unfold handle.
  - reflexivity.
  - reflexivity.
  - open_handlers. destruct (Qt.hidden _); reflexivity.
  - open_handlers. destruct (_ && _); [|reflexivity].
    destruct (String.eqb _ "Others"); reflexivity.
  - apply add_expense_labels.
  - now rewrite save_as_excel_self.
  - now rewrite generate_report_self.
  - reflexivity.
  - reflexivity.
Qed.

(** Only the timer's handler writes the time label. *)
Lemma handle_time_input (e : event) (w : World) :
  Qt.text (time_input (self (exec (handle env e) w))) =
  match e with
  | Timeout now => Qt.HH_mm_ss now
  | _ => Qt.text (time_input (self w))
  end.
Proof.
  destruct e; unfold handle.
  - reflexivity.
  - reflexivity.
  - open_handlers. destruct (Qt.hidden _); reflexivity.
  - open_handlers. destruct (_ && _); [|reflexivity].
    destruct (String.eqb _ "Others"); reflexivity.
  - now rewrite (proj2 (add_expense_labels w)).
  - now rewrite save_as_excel_self.
  - now rewrite generate_report_self.
  - reflexivity.
  - reflexivity.
Qed.

(** Entries of the dropdown are never removed. *)
Lemma handle_dropdown (e : event) (w : World) (name : string) :
  In name (dropdown w) -> In name (dropdown (exec (handle env e) w)).
Proof.
  intros H. destruct e; unfold handle.
  - exact H.
  - exact H.
  - revert H. open_handlers. destruct (Qt.hidden _); auto.
  - revert H. open_handlers. destruct (_ && _); [|auto].
    destruct (String.eqb _ "Others"); auto.
  - destruct (add_expense_dropdown w) as [E | E]; rewrite E;
      [assumption | apply in_or_app; now left].
  - unfold dropdown. now rewrite save_as_excel_self.
  - unfold dropdown. now rewrite generate_report_self.
  - exact H.
  - exact H.
Qed.

Lemma run_cons (e : event) (events : list event) (w : World) :
  run env (e :: events) w = run env events (exec (handle env e) w).
Proof. reflexivity. Qed.

Lemma run_dropdown (events : list event) (w : World) (name : string) :
  In name (dropdown w) -> In name (dropdown (run env events w)).
Proof.
  revert w. induction events as [|e events IH]; intros w H; [exact H|].
  rewrite run_cons. apply IH. now apply handle_dropdown.
Qed.

Lemma run_snoc (events : list event) (e : event) (w : World) :
  run env (events ++ [e]) w = exec (handle env e) (run env events w).
Proof. unfold run. now rewrite fold_left_app. Qed.

End Frames.

(* ================================================================= *)
(** ** Adding an expense *)

(** C1.  When the amount field parses as a number and the effective
    category is not empty (any dropdown entry but [Others], or [Others]
    with a custom name that is not blank), [add_expense] returns normally
    and appends exactly one record: the ledger is one longer, and its last
    element is the new record, carrying that amount and that category. *)
Theorem add_expense_appends_one_record (w : World) (a : float) :
  Py.float (Qt.text (amount_input (self w))) = Some a ->
  effective_category (self w) <> "" ->
  fst (add_expense w) = Returned tt
  /\ List.length (ledger (exec add_expense w)) = S (List.length (ledger w))
  /\ ledger (exec add_expense w) = ledger w ++ [new_record a (self w)]
  /\ (forall d, last (ledger (exec add_expense w)) d = new_record a (self w))
  /\ amount (new_record a (self w)) = a
  /\ category (new_record a (self w)) = effective_category (self w).
Proof.
  intros Hf Hc.
  assert (E : ledger (exec add_expense w) = ledger w ++ [new_record a (self w)]).
  { rewrite add_expense_ledger, Hf.
    destruct (String.eqb _ "Others") eqn:Ho; [|reflexivity].
    unfold effective_category in Hc. cbv zeta in Hc. rewrite Ho in Hc.
    apply truthy_true in Hc. now rewrite Hc. }
  split; [apply add_expense_returns|].
  rewrite E. repeat split.
  - rewrite length_app. cbn. lia.
  - intros d. apply last_last.
Qed.

Lemma add_expense_appends_one_record_witness :
  Py.float (Qt.text (amount_input (self Demo.lunch_typed))) = Some 12.5%float
  /\ effective_category (self Demo.lunch_typed) <> ""
  /\ ledger (exec add_expense Demo.lunch_typed)
     = [{| amount := 12.5; category := "Food";
           date := "07/03/2024"; time := "23:59:58" |}].
Proof.
  assert (Hf : Py.float (Qt.text (amount_input (self Demo.lunch_typed)))
               = Some 12.5%float) by (vm_compute; reflexivity).
  assert (Hc : effective_category (self Demo.lunch_typed) <> "")
    by (vm_compute; discriminate).
  split; [exact Hf | split; [exact Hc|]].
  destruct (add_expense_appends_one_record Demo.lunch_typed _ Hf Hc)
    as (_ & _ & E & _).
  rewrite E. reflexivity.
Defined.

(** C2.  When the amount field does not parse as a number, or [Others] is
    selected with a custom name that is empty once trimmed, [add_expense]
    creates no record: the ledger, and with it every attribute of the
    window, the files and the figures are as before; the user gets one
    warning box. *)
Theorem add_expense_rejection_is_atomic (w : World) :
  Py.float (Qt.text (amount_input (self w))) = None
  \/ (Qt.currentText (category_input (self w)) = "Others"
      /\ Py.strip (Qt.text (custom_category_input (self w))) = "") ->
  ledger (exec add_expense w) = ledger w
  /\ List.length (ledger (exec add_expense w)) = List.length (ledger w)
  /\ self (exec add_expense w) = self w
  /\ files (exec add_expense w) = files w
  /\ plt (exec add_expense w) = plt w
  /\ exists text,
       message_boxes (exec add_expense w)
       = message_boxes w ++ [{| Qt.icon := Qt.Warning;
                                Qt.title := "Input Error";
                                Qt.message := text |}].
Proof.
  intros H. destruct (add_expense_rejected w H) as [text E].
  unfold ledger, exec. rewrite E. cbn.
  repeat split. exists text. reflexivity.
Qed.

Lemma add_expense_rejection_is_atomic_witness :
  (Py.float (Qt.text (amount_input (self Demo.words_typed))) = None
   /\ ledger (exec add_expense Demo.words_typed) = ledger Demo.words_typed)
  /\ (Qt.currentText (category_input (self Demo.blank_custom)) = "Others"
      /\ Py.strip (Qt.text (custom_category_input (self Demo.blank_custom))) = ""
      /\ self (exec add_expense Demo.blank_custom) = self Demo.blank_custom).
Proof.
  assert (Hf : Py.float (Qt.text (amount_input (self Demo.words_typed))) = None)
    by (vm_compute; reflexivity).
  assert (Ho : Qt.currentText (category_input (self Demo.blank_custom)) = "Others")
    by reflexivity.
  assert (Hs : Py.strip (Qt.text (custom_category_input (self Demo.blank_custom))) = "")
    by reflexivity.
  split.
  - split; [exact Hf|].
    exact (proj1 (add_expense_rejection_is_atomic Demo.words_typed (or_introl Hf))).
  - split; [exact Ho | split; [exact Hs|]].
    exact (proj1 (proj2 (proj2 (add_expense_rejection_is_atomic
                                  Demo.blank_custom (or_intror (conj Ho Hs)))))).
Defined.

(** C5.  An add with [Others] selected and a custom name that is not
    blank creates a record whose category is the trimmed custom name; the
    name is appended to the dropdown unless it is already there, in which
    case the dropdown is unchanged; and it stays in the dropdown whatever
    happens in the rest of the session. *)
Theorem custom_category_recorded_and_offered
        (env : Env) (w : World) (a : float) (name : string) :
  Py.float (Qt.text (amount_input (self w))) = Some a ->
  Qt.currentText (category_input (self w)) = "Others" ->
  Py.strip (Qt.text (custom_category_input (self w))) = name ->
  name <> "" ->
  (exists r, ledger (exec add_expense w) = ledger w ++ [r]
             /\ category r = name /\ amount r = a)
  /\ (In name (dropdown w) -> dropdown (exec add_expense w) = dropdown w)
  /\ (~ In name (dropdown w) ->
      dropdown (exec add_expense w) = dropdown w ++ [name])
  /\ (forall events, In name (dropdown (run env events (exec add_expense w)))).
Proof.
  intros Hf Ho Hs Hn.
  apply String.eqb_eq in Ho. apply truthy_true in Hn.
  assert (D : dropdown (exec add_expense w)
              = if str_in name (Qt.items (category_input (self w)))
                then dropdown w else dropdown w ++ [name]).
  { rewrite <- (item_texts_items (category_input (self w))) at 1.
    revert Hn. rewrite <- Hs. clear Hs.
    split_add_expense; intros; try congruence; reflexivity. }
  change (Qt.items (category_input (self w))) with (dropdown w) in D.
  split; [|split; [|split]].
  - exists (new_record a (self w)). split; [|split].
    + rewrite add_expense_ledger, Hf, Ho, Hs, Hn. reflexivity.
    + unfold new_record, effective_category. cbn. now rewrite Ho.
    + reflexivity.
  - intros Hin. apply str_in_In in Hin. now rewrite D, Hin.
  - intros Hin. rewrite D. destruct (str_in name (dropdown w)) eqn:E;
      [apply str_in_In in E; contradiction | reflexivity].
  - intros events. apply run_dropdown. rewrite D.
    destruct (str_in name (dropdown w)) eqn:E;
      [now apply str_in_In | apply in_or_app; right; now left].
Qed.

Lemma custom_category_recorded_and_offered_witness :
  ledger (exec add_expense Demo.gifts_typed)
  = [{| amount := 40; category := "Gifts";
        date := "07/03/2024"; time := "23:59:58" |}]
  /\ dropdown (exec add_expense Demo.gifts_typed)
     = ["Food"; "Travel"; "Utilities"; "Entertainment"; "Others"; "Gifts"]
  /\ In "Gifts" (dropdown (run Demo.env [SelectCategory 0; ClickGenerateReport]
                               (exec add_expense Demo.gifts_typed))).
Proof.
  assert (Hf : Py.float (Qt.text (amount_input (self Demo.gifts_typed)))
               = Some 40%float) by (vm_compute; reflexivity).
  assert (Hn : "Gifts" <> "") by discriminate.
  destruct (custom_category_recorded_and_offered
              Demo.env Demo.gifts_typed 40 "Gifts" Hf eq_refl eq_refl Hn)
    as (_ & _ & _ & Hlater).
  split; [reflexivity | split; [reflexivity | apply Hlater]].
Defined.

(* ================================================================= *)
(** ** The category totals *)

Lemma lookup_setitem {V : Type} (d : Py.dict V) (k k' : string) (v : V) :
  Py.lookup (Py.setitem d k v) k'
  = if String.eqb k k' then Some v else Py.lookup d k'.
Proof.
  induction d as [|[k0 v0] d IH]; cbn [Py.setitem Py.lookup].
  - destruct (String.eqb_spec k k'); reflexivity.
  - destruct (String.eqb_spec k0 k) as [->|Hk]; cbn [Py.lookup].
    + destruct (String.eqb_spec k k'); reflexivity.
    + rewrite IH. destruct (String.eqb_spec k0 k') as [->|Hk'];
        [|reflexivity].
      destruct (String.eqb_spec k k'); [congruence | reflexivity].
Qed.

Lemma lookup_keys {V : Type} (d : Py.dict V) (k : string) :
  In k (Py.keys d) <-> Py.lookup d k <> None.
Proof.
  induction d as [|[k0 v0] d IH]; cbn [Py.keys map fst Py.lookup In].
  - tauto.
  - destruct (String.eqb_spec k0 k) as [->|Hk].
    + split; [discriminate | auto].
    + unfold Py.keys in IH. rewrite <- IH. tauto.
Qed.

Lemma keys_setitem {V : Type} (d : Py.dict V) (k : string) (v : V) :
  Py.keys (Py.setitem d k v)
  = if str_in k (Py.keys d) then Py.keys d else Py.keys d ++ [k].
Proof.
  unfold Py.keys, str_in.
  induction d as [|[k0 v0] d IH]; cbn [Py.setitem map fst existsb];
    [reflexivity|].
  rewrite (String.eqb_sym k k0).
  destruct (String.eqb k0 k); cbn [orb map fst]; [reflexivity|].
  rewrite IH. destruct (existsb _ _); reflexivity.
Qed.

Lemma tally_keys_NoDup (l : list expense) (d : Py.dict float) :
  NoDup (Py.keys d) -> NoDup (Py.keys (fold_left tally l d)).
Proof.
  revert d. induction l as [|e l IH]; intros d H; [exact H|].
  cbn [fold_left]. apply IH. unfold tally. cbv zeta. rewrite keys_setitem.
  destruct (str_in _ _) eqn:E; [exact H|].
  apply NoDup_app; [exact H | repeat constructor; intros [] | ].
  intros x Hx [<-|[]]. apply str_in_In in Hx. congruence.
Qed.

(** The loop, started from any dict: a category's entry is what it was
    when no record has the category, and otherwise the old entry (or
    [0.0]) with the category's amounts added on, in ledger order. *)
Lemma tally_lookup (l : list expense) (d : Py.dict float) (c : string) :
  Py.lookup (fold_left tally l d) c
  = match amounts_in c l with
    | [] => Py.lookup d c
    | xs => Some (fold_left PrimFloat.add xs (Py.get d c zero))
    end.
Proof.
  revert d. induction l as [|e l IH]; intros d; [reflexivity|].
  cbn [fold_left]. rewrite IH. unfold amounts_in. cbn [filter].
  unfold Py.get, tally. cbv zeta. rewrite lookup_setitem.
  destruct (String.eqb (category e) c) eqn:E; cbn [map fold_left].
  - apply String.eqb_eq in E. subst c.
    destruct (map amount _); reflexivity.
  - reflexivity.
Qed.

Lemma amounts_in_nil (c : string) (l : list expense) :
  amounts_in c l = [] <-> ~ In c (map category l).
Proof.
  unfold amounts_in. induction l as [|e l IH]; cbn [filter map In]; [tauto|].
  destruct (String.eqb_spec (category e) c) as [->|Hc]; cbn [map].
  - split; [discriminate | tauto].
  - rewrite IH. tauto.
Qed.

(** C3.  The aggregation of [generate_report] maps every category that
    occurs in the ledger to the sum of the amounts of the records of that
    category (added up in ledger order, as [sum] does), has no key for a
    category without records, and has each key once; on the records
    [(100, Food), (50, Food), (30, Travel)] it is
    [{Food: 150, Travel: 30}]. *)
Theorem totals_by_category_sums (l : list expense) (c : string) :
  (In c (map category l) ->
   Py.lookup (totals_by_category l) c = Some (category_sum c l))
  /\ (~ In c (map category l) ->
      Py.lookup (totals_by_category l) c = None
      /\ ~ In c (Py.keys (totals_by_category l)))
  /\ NoDup (Py.keys (totals_by_category l))
  /\ totals_by_category Demo.spec_example
     = [("Food", 150%float); ("Travel", 30%float)].
Proof.
  assert (E : Py.lookup (totals_by_category l) c
              = match amounts_in c l with
                | [] => None
                | xs => Some (Py.sum xs)
                end) by apply tally_lookup.
  split; [|split; [|split]].
  - intros Hin. rewrite E. unfold category_sum.
    destruct (amounts_in c l) eqn:Ea; [|reflexivity].
    apply amounts_in_nil in Ea. contradiction.
  - intros Hout. apply amounts_in_nil in Hout. rewrite Hout in E.
    split; [exact E|]. rewrite lookup_keys. now rewrite E.
  - apply tally_keys_NoDup. constructor.
  - vm_compute. reflexivity.
Qed.

(* ================================================================= *)
(** ** Export and report *)

(** The frame pandas builds from a ledger that is not empty. *)
Lemma of_records_expenses (e : expense) (l : list expense) :
  Pandas.of_records (map expense_items (e :: l))
  = {| Pandas.columns := ["amount"; "category"; "date"; "time"];
       Pandas.rows := map export_row (e :: l) |}.
Proof.
  assert (C : forall l',
             fold_left Pandas.add_keys (map expense_items l')
                       ["amount"; "category"; "date"; "time"]
             = ["amount"; "category"; "date"; "time"]).
  { induction l' as [|x l' IH]; [reflexivity | exact IH]. }
  unfold Pandas.of_records. cbn [map fold_left].
  change (Pandas.add_keys [] (expense_items e))
    with ["amount"; "category"; "date"; "time"].
  rewrite C, map_map. f_equal.
Qed.



Section Exporting.

Variable env : Env.

Ltac open_handlers :=
  unfold ledger, dropdown, notified, exec, save_as_excel, generate_report,
    to_excel, plt_pie, QMessageBox_warning, QMessageBox_information,
    message_box, modify_self, modify_plt, bind, get_self, ret, raise;
  cbv beta iota zeta.



(** C7.  On an empty ledger the aggregation is the empty dict, and both
    "Generate Report" and "Save as Excel" do nothing but show a warning
    box: they return normally, no figure is drawn or shown, no file is
    written, and the ledger is unchanged. *)
Theorem empty_ledger_is_a_notice (answer : string) (w : World) :
  ledger w = [] ->
  totals_by_category (ledger w) = []
  /\ generate_report env w
     = (Returned tt,
        notified Qt.Warning "No Data" "No expenses to generate a report." w)
  /\ save_as_excel env answer w
     = (Returned tt, notified Qt.Warning "No Data" "No expenses to save." w)
  /\ (forall title text,
        let w' := notified Qt.Warning title text w in
        plt w' = plt w /\ files w' = files w /\ self w' = self w
        /\ message_boxes w'
           = message_boxes w ++ [{| Qt.icon := Qt.Warning; Qt.title := title;
                                    Qt.message := text |}]).
Proof.
  unfold ledger. intros H. rewrite H.
  split; [reflexivity|]. split; [|split].
  - open_handlers. rewrite H. reflexivity.
  - open_handlers. rewrite H. reflexivity.
  - intros title text. cbv zeta. repeat split.
Qed.

(** C8.  Neither "Save as Excel" nor "Generate Report" touches the
    ledger: whatever state the handler leaves, and whether it returned,
    did nothing or raised, the sequence of records is the one before. *)
Theorem export_and_report_keep_ledger (answer : string) (w : World) :
  ledger (snd (save_as_excel env answer w)) = ledger w
  /\ ledger (snd (generate_report env w)) = ledger w.
Proof.
  unfold ledger. split.
  - exact (f_equal expenses (save_as_excel_self env answer w)).
  - exact (f_equal expenses (generate_report_self env w)).
Qed.

(** C9 (what the code does).  When pandas cannot write the destination,
    the exception leaves [save_as_excel]: nothing catches it, no message
    box is shown, and the world is as before the click. *)
Theorem export_failure_escapes (answer : string) (e : Py.exn) (w : World) :
  ledger w <> [] -> answer <> "" -> to_excel_error env answer = Some e ->
  save_as_excel env answer w = (Raised e, w).
Proof.
  intros Hl Ha He. apply truthy_true in Ha. open_handlers.
  destruct (expenses (self w)) as [|x l] eqn:El; [contradiction|].
  rewrite Ha, He. destruct w; reflexivity.
Qed.

End Exporting.


(** A NaN amount is accepted and leaves an empty cell in the file, an
    infinite one a text. *)
Example odd_amounts_in_the_file :
  Py.lookup (files (exec (save_as_excel Demo.env "out.xlsx") Cases.nan_logged))
            "out.xlsx"
  = Some [[Pandas.Text "amount"; Pandas.Text "category"; Pandas.Text "date";
           Pandas.Text "time"];
          [Pandas.Empty; Pandas.Text "Food"; Pandas.Text "07/03/2024";
           Pandas.Text "23:59:58"]]
  /\ map amount_cell [infinity; neg_infinity; nan; (-5)%float]
     = [Pandas.Text "inf"; Pandas.Text "-inf"; Pandas.Empty;
        Pandas.Number (-5)].
Proof. split; vm_compute; reflexivity. Qed.


Lemma empty_ledger_is_a_notice_witness :
  ledger Demo.started = []
  /\ message_boxes (exec (generate_report Demo.env) Demo.started)
     = [{| Qt.icon := Qt.Warning; Qt.title := "No Data";
           Qt.message := "No expenses to generate a report." |}]
  /\ files (exec (save_as_excel Demo.env "out.xlsx") Demo.started) = [].
Proof.
  destruct (empty_ledger_is_a_notice Demo.env "out.xlsx" Demo.started eq_refl)
    as (_ & Hr & Hs & _).
  unfold exec. rewrite Hr, Hs. repeat split.
Defined.

Lemma export_failure_escapes_witness :
  ledger Demo.one_expense <> []
  /\ to_excel_error Demo.env "/proc/out.xlsx" = Some Py.OSError
  /\ save_as_excel Demo.env "/proc/out.xlsx" Demo.one_expense
     = (Raised Py.OSError, Demo.one_expense)
  /\ message_boxes Demo.one_expense = [].
Proof.
  assert (Hl : ledger Demo.one_expense <> []) by (vm_compute; discriminate).
  assert (Ha : "/proc/out.xlsx" <> "") by discriminate.
  split; [exact Hl | split; [reflexivity | split; [|reflexivity]]].
  exact (export_failure_escapes Demo.env "/proc/out.xlsx" Py.OSError
                                Demo.one_expense Hl Ha eq_refl).
Defined.

(* ================================================================= *)
(** ** Whole sessions *)

Section Session.

Variable env : Env.

(** A property of records that every appended record has holds of the
    whole ledger, all along a session. *)
Lemma run_ledger_Forall (P : World -> expense -> Prop) :
  (forall e w r, P w r -> P (exec (handle env e) w) r) ->
  (forall w a, Py.float (Qt.text (amount_input (self w))) = Some a ->
               P (exec add_expense w) (new_record a (self w))) ->
  forall events w,
    Forall (P w) (ledger w) ->
    Forall (P (run env events w)) (ledger (run env events w)).
Proof.
  intros Hkeep Hnew events.
  induction events as [|e events IH]; intros w H; [exact H|].
  rewrite run_cons. apply IH.
  assert (K : Forall (P (exec (handle env e) w)) (ledger w)).
  { revert H. apply Forall_impl. intros r. apply Hkeep. }
  destruct e; try (rewrite handle_ledger by discriminate; exact K).
  unfold handle in *. rewrite add_expense_ledger.
  destruct (Py.float _) as [a|] eqn:Hf; [|exact K].
  destruct (_ && _); [exact K|].
  apply Forall_app. split; [exact K|].
  constructor; [now apply Hnew | constructor].
Qed.

Lemma run_date_input (events : list event) (w : World) :
  date_input (self (run env events w)) = date_input (self w).
Proof.
  revert w. induction events as [|e events IH]; intros w; [reflexivity|].
  rewrite run_cons, IH. apply handle_date_input.
Qed.

Lemma run_time_input (events : list event) (w : World) (now : Qt.QDateTime) :
  Qt.text (time_input (self w)) = Qt.HH_mm_ss now ->
  Qt.text (time_input (self (run env events w)))
  = Qt.HH_mm_ss (last_reading events now).
Proof.
  revert w now. induction events as [|e events IH]; intros w now H;
    [exact H|].
  rewrite run_cons. cbn [last_reading fold_left]. apply IH.
  rewrite handle_time_input. destruct e; try exact H. reflexivity.
Qed.

(** What a handler does to the text of the amount field: it leaves it,
    empties it, or it is what the user has just typed. *)
Lemma handle_amount_text (e : event) (w : World) :
  Qt.text (amount_input (self (exec (handle env e) w)))
  = Qt.text (amount_input (self w))
  \/ Qt.text (amount_input (self (exec (handle env e) w))) = ""
  \/ e = TypeAmount (Qt.text (amount_input (self (exec (handle env e) w)))).
Proof.
  destruct e; unfold handle.
  - now left.
  - right. right. reflexivity.
  - left. unfold exec, bind, get_self, ret, modify_self.
    cbv beta iota zeta. destruct (Qt.hidden _); reflexivity.
  - left. unfold exec, bind, get_self, ret, modify_self,
      toggle_custom_category.
    cbv beta iota zeta. destruct (_ && _); [|reflexivity].
    destruct (String.eqb _ "Others"); reflexivity.
  - assert (H : Qt.text (amount_input (self (exec add_expense w)))
                = Qt.text (amount_input (self w))
                \/ Qt.text (amount_input (self (exec add_expense w))) = "")
      by (split_add_expense; auto).
    tauto.
  - left. now rewrite save_as_excel_self.
  - left. now rewrite generate_report_self.
  - now left.
  - now left.
Qed.

(** The amount field holds nothing, or what the user typed at some
    point. *)
Lemma amount_text_was_typed (events : list event) (w : World) :
  Qt.text (amount_input (self w)) = "" ->
  Qt.text (amount_input (self (run env events w))) = ""
  \/ In (TypeAmount (Qt.text (amount_input (self (run env events w)))))
        events.
Proof.
  intros H0. induction events as [|e events IH] using rev_ind; [now left|].
  rewrite run_snoc.
  destruct (handle_amount_text e (run env events w)) as [E | [E | E]].
  - rewrite E. destruct IH as [IH | IH]; [now left|].
    right. apply in_or_app. now left.
  - now left.
  - right. apply in_or_app. right. left. now rewrite <- E.
Qed.

(** C6, as amended.  Every record in the ledger, at any point of any
    session, was appended by a click on "Add Expense", and its amount is
    what [float] returned for the text that was in the amount field at
    that click, a text the user had typed: that the text parses is all
    that is asked of an amount, and nothing keeps a zero or negative
    amount out. *)
Theorem ledger_amounts_are_parsed_numbers
        (today : Qt.QDate) (now : Qt.QDateTime) (disk : Py.dict Pandas.Workbook)
        (events : list event) :
  Forall (fun r =>
            exists before after text,
              events = before ++ ClickAddExpense :: after
              /\ In (TypeAmount text) before
              /\ Qt.text (amount_input
                            (self (run env before (launch today now disk))))
                 = text
              /\ Py.float text = Some (amount r)
              /\ ledger (run env (before ++ [ClickAddExpense])
                             (launch today now disk))
                 = ledger (run env before (launch today now disk)) ++ [r])
         (ledger (run env events (launch today now disk))).
Proof.
  induction events as [|e events IH] using rev_ind; [constructor|].
  rewrite run_snoc.
  set (w := run env events (launch today now disk)) in *.
  assert (K : Forall (fun r =>
            exists before after text,
              events ++ [e] = before ++ ClickAddExpense :: after
              /\ In (TypeAmount text) before
              /\ Qt.text (amount_input
                            (self (run env before (launch today now disk))))
                 = text
              /\ Py.float text = Some (amount r)
              /\ ledger (run env (before ++ [ClickAddExpense])
                             (launch today now disk))
                 = ledger (run env before (launch today now disk)) ++ [r])
         (ledger w)).
  { revert IH. apply Forall_impl.
    intros r (before & after & text & Hev & Hin & Ht & Hf & Hl).
    exists before, (after ++ [e]), text. repeat split; try assumption.
    rewrite Hev, <- app_assoc. reflexivity. }
  destruct e; try (rewrite handle_ledger by discriminate; exact K).
  unfold handle. rewrite add_expense_ledger.
  destruct (Py.float _) as [a|] eqn:Hf; [|exact K].
  destruct (_ && _) eqn:Hc; [exact K|].
  apply Forall_app. split; [exact K|]. constructor; [|constructor].
  exists events, [], (Qt.text (amount_input (self w))).
  split; [reflexivity|]. split; [|split; [reflexivity | split; [exact Hf|]]].
  - destruct (amount_text_was_typed events (launch today now disk) eq_refl)
      as [E | Hin]; [|exact Hin].
    fold w in E. rewrite E in Hf. discriminate Hf.
  - rewrite run_snoc. fold w. unfold handle.
    rewrite add_expense_ledger, Hf, Hc. reflexivity.
Qed.

(** C10, as amended.  In any session: the timer's handler rewrites the
    time label and nothing else; the date label still shows the date read
    at construction; the time label shows the clock reading taken at the
    latest timer tick (or at construction, when the timer has not fired);
    so every record of the ledger carries the start date, and a record
    appended now carries the start date and, as its time, that latest
    reading, not the time of the click. *)
Theorem records_carry_start_date
        (today : Qt.QDate) (now : Qt.QDateTime) (disk : Py.dict Pandas.Workbook)
        (events : list event) :
  let w := run env events (launch today now disk) in
  (forall t,
     update_time t w
     = (Returned tt,
        {| self := set_time_input (Qt.setText (Qt.HH_mm_ss t)) (self w);
           message_boxes := message_boxes w; plt := plt w; files := files w |})
     /\ date_input (self (exec (update_time t) w)) = date_input (self w)
     /\ ledger (exec (update_time t) w) = ledger w)
  /\ Qt.text (date_input (self w)) = Qt.dd_MM_yyyy today
  /\ Qt.text (time_input (self w)) = Qt.HH_mm_ss (last_reading events now)
  /\ Forall (fun r => date r = Qt.dd_MM_yyyy today) (ledger w)
  /\ (forall a,
        Py.float (Qt.text (amount_input (self w))) = Some a ->
        effective_category (self w) <> "" ->
        ledger (exec add_expense w)
        = ledger w ++ [{| amount := a; category := effective_category (self w);
                          date := Qt.dd_MM_yyyy today;
                          time := Qt.HH_mm_ss (last_reading events now) |}]).
Proof.
  intros w.
  assert (Hd : Qt.text (date_input (self w)) = Qt.dd_MM_yyyy today).
  { unfold w. now rewrite run_date_input. }
  assert (Ht : Qt.text (time_input (self w))
               = Qt.HH_mm_ss (last_reading events now)).
  { unfold w. now apply run_time_input. }
  split; [|split; [exact Hd | split; [exact Ht | split]]].
  - intros t. repeat split.
  - rewrite <- Hd. unfold w.
    apply (run_ledger_Forall
             (fun w r => date r = Qt.text (date_input (self w)))).
    + intros e w0 r H. now rewrite handle_date_input.
    + intros w0 a _. unfold new_record. cbn [date].
      now rewrite (proj1 (add_expense_labels w0)).
    + constructor.
  - intros a Hf Hc. rewrite add_expense_ledger, Hf.
    rewrite <- Hd, <- Ht.
    destruct (String.eqb _ "Others") eqn:Ho; [|reflexivity].
    unfold effective_category in Hc. cbv zeta in Hc. rewrite Ho in Hc.
    apply truthy_true in Hc. now rewrite Hc.
Qed.

End Session.

(** The claim C6 makes fails once [-5] is typed and added: the record is
    in the ledger and its amount is not positive. *)
Lemma negative_amount_is_recorded :
  ledger (run Demo.env [TypeAmount "-5"; ClickAddExpense] Demo.started)
  = [{| amount := (-5)%float; category := "Food";
        date := "07/03/2024"; time := "23:59:58" |}]
  /\ (0 <? -5)%float = false
  /\ ~ Forall (fun r => positive (amount r))
         (ledger (run Demo.env [TypeAmount "-5"; ClickAddExpense] Demo.started)).
Proof.
  split; [vm_compute; reflexivity | split; [reflexivity|]].
  intros H. apply Forall_inv in H. vm_compute in H. discriminate H.
Qed.

(** The claim C10 makes of the time field fails around midnight: the
    click comes when the clock reads 00:00:00, and the record's time is
    the 23:59:59 of the tick before it. *)
Lemma record_time_lags_the_clock :
  ledger (run_clocked Demo.env Cases.around_midnight Demo.started)
  = [{| amount := 3; category := "Food";
        date := "07/03/2024"; time := "23:59:59" |}]
  /\ Qt.HH_mm_ss (Demo.clock 8 0 0 0) = "00:00:00"
  /\ ~ Forall (fun r => time r = Qt.HH_mm_ss (Demo.clock 8 0 0 0))
        (ledger (run_clocked Demo.env Cases.around_midnight Demo.started)).
Proof.
  split; [vm_compute; reflexivity | split; [reflexivity|]].
  intros H. apply Forall_inv in H. vm_compute in H. discriminate H.
Qed.

(** [Others] with a name of one ideographic space: the name is blank once
    trimmed, and the add is refused. *)
Example blank_unicode_name_is_refused :
  let w := run Demo.env [SelectCategory 4; TypeCustomCategory "　";
                         TypeAmount "40"; ClickAddExpense] Demo.started in
  ledger w = []
  /\ map Qt.message (message_boxes w)
     = ["Please specify a custom category for 'Others'."].
Proof. vm_compute. split; reflexivity. Qed.

(** An amount in Devanagari digits is a number and is recorded. *)
Example devanagari_amount_is_recorded :
  map amount (ledger (run Demo.env [TypeAmount "१२"; ClickAddExpense]
                          Demo.started))
  = [12%float].
Proof. vm_compute. reflexivity. Qed.

(** Zero is recorded as well. *)
Example zero_amount_is_recorded :
  map amount (ledger (run Demo.env [TypeAmount "0"; ClickAddExpense] Demo.started))
  = [0%float].
Proof. vm_compute. reflexivity. Qed.

(** The timer ticks past midnight and an expense is added on 8 March: its
    date is still 7 March, its time the tick's. *)
Example added_after_midnight :
  ledger (run Demo.env [Timeout (Demo.clock 8 0 0 1); TypeAmount "3";
                        ClickAddExpense] Demo.started)
  = [{| amount := 3; category := "Food";
        date := "07/03/2024"; time := "00:00:01" |}].
Proof. vm_compute. reflexivity. Qed.

(** A whole session: two adds (one through [Others]), a rejected add, a
    report the plotting library refuses, an export, a refused export. *)
Example session :
  let w := run Demo.env
             [TypeAmount "12.5"; ClickAddExpense; SelectCategory 4;
              TypeCustomCategory " Gifts "; TypeAmount "-5"; ClickAddExpense;
              TypeAmount "x"; ClickAddExpense; ClickGenerateReport;
              ClickSaveAsExcel "a.xlsx"; ClickSaveAsExcel "/proc/a.xlsx"]
             Demo.started in
  map category (ledger w) = ["Food"; "Gifts"]
  /\ Qt.cells (table (self w))
     = [[Some (rupee ++ "12.50")%string; Some "Food"; Some "07/03/2024";
         Some "23:59:58"];
        [Some (rupee ++ "-5.00")%string; Some "Gifts"; Some "07/03/2024";
         Some "23:59:58"]]
  /\ map Qt.title (message_boxes w) = ["Input Error"; "Success"]
  /\ Pyplot.shown (plt w) = []
  /\ Py.keys (files w) = ["a.xlsx"].
Proof. vm_compute. repeat split. Qed.

(* ================================================================= *)
(** ** Further properties of the ledger and its views *)

Lemma update_length {A : Type} (n : nat) (f : A -> A) (l : list A) :
  List.length (Qt.update n f l) = List.length l.
Proof.
  revert n. induction l as [|x l IH]; intros [|n]; cbn; auto.
Qed.

Lemma update_Forall {A : Type} (P : A -> Prop) (n : nat) (f : A -> A)
      (l : list A) :
  Forall P l -> (forall x, P x -> P (f x)) -> Forall P (Qt.update n f l).
Proof.
  intros Hl Hf. revert n.
  induction Hl as [|x l Hx Hl IH]; intros [|n]; cbn; constructor; auto.
Qed.

Lemma update_last {A : Type} (f : A -> A) (l : list A) (x : A) :
  Qt.update (List.length l) f (l ++ [x]) = l ++ [f x].
Proof. induction l as [|y l IH]; cbn; [reflexivity | now rewrite IH]. Qed.

(** The four [setItem] calls after [insertRow(rowCount())] add one full
    row at the bottom of a four-column table. *)
Lemma store_expense_table (a : float) (c : string) (w : World) :
  Qt.columnCount (table (self w)) = 4 ->
  table (self (exec (store_expense a c) w))
  = Qt.with_cells
      (fun cs => cs ++ [table_row {| amount := a; category := c;
                                     date := Qt.text (date_input (self w));
                                     time := Qt.text (time_input (self w)) |}])
      (table (self w)).
Proof.
  intros H4. unfold exec, store_expense, bind, get_self, modify_self.
  cbn [snd self table set_table set_amount_input set_custom_category_input
       set_expenses].
  unfold Qt.insertRow, Qt.setItem, Qt.rowCount. rewrite Nat.leb_refl, H4.
  unfold Qt.with_cells.
  cbn [Qt.cells Qt.columnCount Qt.horizontalHeaderLabels].
  rewrite firstn_all, skipn_all, !update_last, H4. reflexivity.
Qed.

Lemma add_expense_table (w : World) :
  Qt.columnCount (table (self w)) = 4 ->
  table (self (exec add_expense w)) =
  match Py.float (Qt.text (amount_input (self w))) with
  | None => table (self w)
  | Some a =>
      if String.eqb (Qt.currentText (category_input (self w))) "Others"
         && negb (Py.truthy (Py.strip (Qt.text (custom_category_input (self w)))))
      then table (self w)
      else Qt.with_cells (fun cs => cs ++ [table_row (new_record a (self w))])
                         (table (self w))
  end.
Proof.
  intros H4. split_add_expense; try reflexivity.
  all: unfold ret, modify_self; cbv beta iota zeta.
  all: match goal with
       | |- context [store_expense ?a ?c ?w'] =>
           change (table (self (exec (store_expense a c) w'))
                   = Qt.with_cells
                       (fun cs => cs ++
                          [table_row {| amount := a; category := c;
                                        date := Qt.text (date_input (self w'));
                                        time := Qt.text (time_input (self w')) |}])
                       (table (self w')));
           apply store_expense_table; exact H4
       end.
Qed.

Lemma totals_of_nonempty_ledger (e : expense) (l : list expense) :
  totals_by_category (e :: l) <> [].
Proof.
  intros H.
  assert (L : Py.lookup (totals_by_category (e :: l)) (category e) = None)
    by now rewrite H.
  unfold totals_by_category in L. rewrite tally_lookup in L.
  unfold amounts_in in L. cbn [filter] in L.
  rewrite String.eqb_refl in L. discriminate L.
Qed.

Lemma on_current_last (f : Pyplot.Figure -> Pyplot.Figure)
      (p : Pyplot.State) (win : Pyplot.Window) :
  Pyplot.on_current f (p ++ [win])
  = p ++ [{| Pyplot.drawn := f (Pyplot.drawn win);
             Pyplot.on_screen := Pyplot.on_screen win |}].
Proof.
  unfold Pyplot.on_current. rewrite rev_app_distr. cbn [rev app].
  now rewrite rev_involutive.
Qed.

Lemma open_show (p : Pyplot.State) :
  Pyplot.open (Pyplot.show p) = Pyplot.open p.
Proof.
  unfold Pyplot.open, Pyplot.show. rewrite map_map. reflexivity.
Qed.

Lemma shown_show (p : Pyplot.State) :
  Pyplot.shown (Pyplot.show p) = Pyplot.open p.
Proof.
  unfold Pyplot.shown, Pyplot.open, Pyplot.show.
  induction p as [|win p IH]; [reflexivity|]. cbn. now rewrite IH.
Qed.

Section Views.

Variable env : Env.

Lemma handle_table (e : event) (w : World) :
  e <> ClickAddExpense -> (forall row column text, e <> EditCell row column text) ->
  table (self (exec (handle env e) w)) = table (self w).
Proof.
  intros He Hc. destruct e; try congruence; unfold handle.
  - reflexivity.
  - reflexivity.
  - unfold exec, bind, get_self, ret, modify_self. cbv beta iota zeta.
    destruct (Qt.hidden _); reflexivity.
  - unfold exec, bind, get_self, ret, modify_self, toggle_custom_category.
    cbv beta iota zeta. destruct (_ && _); [|reflexivity].
    destruct (String.eqb _ "Others"); reflexivity.
  - now rewrite save_as_excel_self.
  - now rewrite generate_report_self.
  - reflexivity.
Qed.

(** X1.  The ledger is append-only: whatever happens, the records already
    there stay, unchanged and in place, and new ones come after them. *)
Theorem ledger_is_append_only (events : list event) (w : World) :
  exists added, ledger (run env events w) = ledger w ++ added.
Proof.
  revert w. induction events as [|e events IH]; intros w.
  - exists []. now rewrite app_nil_r.
  - rewrite run_cons. destruct (IH (exec (handle env e) w)) as [added E].
    rewrite E. clear E IH.
    destruct e; try (rewrite handle_ledger by discriminate; now exists added).
    unfold handle. rewrite add_expense_ledger.
    destruct (Py.float _) as [a|]; [|now exists added].
    destruct (_ && _); [now exists added|].
    exists (new_record a (self w) :: added). now rewrite <- app_assoc.
Qed.

(** X2.  The table keeps step with the ledger: at every point of a
    session it has one row of four cells per record; and as long as the
    user has not rewritten a cell, the rows show the records, in ledger
    order: the amount with the rupee sign and two decimals, the
    category, the date and the time. *)
Theorem table_shows_ledger
        (today : Qt.QDate) (now : Qt.QDateTime) (disk : Py.dict Pandas.Workbook)
        (events : list event) :
  let w := run env events (launch today now disk) in
  Qt.rowCount (table (self w)) = List.length (ledger w)
  /\ Forall (fun row => List.length row = 4) (Qt.cells (table (self w)))
  /\ (Forall (fun e => forall row column text, e <> EditCell row column text)
             events ->
      Qt.cells (table (self w)) = map table_row (ledger w)).
Proof.
  assert (I : forall evs w0,
             Qt.columnCount (table (self w0)) = 4
             /\ Qt.rowCount (table (self w0)) = List.length (ledger w0)
             /\ Forall (fun row => List.length row = 4)
                       (Qt.cells (table (self w0))) ->
             Qt.rowCount (table (self (run env evs w0)))
             = List.length (ledger (run env evs w0))
             /\ Forall (fun row => List.length row = 4)
                       (Qt.cells (table (self (run env evs w0))))).
  { induction evs as [|e evs IH]; intros w0 H; [exact (proj2 H)|].
    rewrite run_cons. apply IH. destruct H as (H4 & Hn & Hr).
    destruct e;
      try (rewrite handle_table, handle_ledger by discriminate; now repeat split).
    - unfold handle. rewrite add_expense_table, add_expense_ledger by exact H4.
      destruct (Py.float _) as [a|]; [|now repeat split].
      destruct (_ && _); [now repeat split|].
      unfold Qt.rowCount in *. cbn [Qt.with_cells Qt.cells Qt.columnCount].
      split; [exact H4 | split].
      + rewrite !length_app, Hn. reflexivity.
      + apply Forall_app. split; [exact Hr | repeat constructor].
    - rewrite handle_ledger by discriminate.
      unfold handle, exec, modify_self, Qt.setItem, Qt.rowCount in *.
      cbn [snd self table set_table Qt.with_cells Qt.cells Qt.columnCount].
      split; [exact H4 | split].
      + now rewrite update_length.
      + apply update_Forall; [exact Hr|].
        intros cells_of_row Hlen. now rewrite update_length. }
  assert (J : forall evs w0,
             Forall (fun e => forall row column text,
                         e <> EditCell row column text) evs ->
             Qt.columnCount (table (self w0)) = 4
             /\ Qt.cells (table (self w0)) = map table_row (ledger w0) ->
             Qt.cells (table (self (run env evs w0)))
             = map table_row (ledger (run env evs w0))).
  { induction evs as [|e evs IH]; intros w0 Hev H; [exact (proj2 H)|].
    rewrite run_cons. inversion Hev as [|e' evs' He Hevs]; subst.
    apply IH; [exact Hevs|]. destruct H as [H4 Hc].
    destruct e;
      try (rewrite handle_table, handle_ledger by (discriminate || assumption);
           now split).
    unfold handle. rewrite add_expense_table, add_expense_ledger by exact H4.
      destruct (Py.float _) as [a|]; [|now split].
      destruct (_ && _); [now split|].
      split; [exact H4|]. cbn [Qt.with_cells Qt.cells].
      now rewrite map_app, Hc. }
  intros w. destruct (I events (launch today now disk)) as [Hn Hr].
  { repeat split. constructor. }
  split; [exact Hn | split; [exact Hr|]].
  intros Hev. apply J; [exact Hev | split; reflexivity].
Qed.

(** X3.  Cancelling the file dialog does nothing at all: no file, no message
    box, and the handler returns normally. *)
Theorem cancelled_export_does_nothing (w : World) :
  ledger w <> [] -> save_as_excel env "" w = (Returned tt, w).
Proof.
  unfold ledger, save_as_excel, bind, get_self. intros H.
  destruct (expenses (self w)); [contradiction | reflexivity].
Qed.

(** X4.  With a ledger that is not empty and wedge sizes the plotting
    library accepts, "Generate Report" returns normally; the pie of the
    category totals, labelled with the categories in order of first
    appearance and titled "Expense Distribution", becomes the newest
    open figure, and every open figure, the pie included, is on screen
    afterwards; nothing else changes. *)
Theorem report_shows_the_totals (w : World) :
  ledger w <> [] ->
  pie_error env (Py.values (totals_by_category (ledger w))) = None ->
  fst (generate_report env w) = Returned tt
  /\ Pyplot.open (plt (exec (generate_report env) w))
     = Pyplot.open (plt w) ++ [report_figure (ledger w)]
  /\ Pyplot.shown (plt (exec (generate_report env) w))
     = Pyplot.open (plt w) ++ [report_figure (ledger w)]
  /\ self (exec (generate_report env) w) = self w
  /\ files (exec (generate_report env) w) = files w
  /\ message_boxes (exec (generate_report env) w) = message_boxes w.
Proof.
  unfold ledger. intros Hl Hp.
  assert (E : generate_report env w
              = (Returned tt,
                 {| self := self w; message_boxes := message_boxes w;
                    plt := Pyplot.show
                             (plt w ++ [{| Pyplot.drawn :=
                                             report_figure (expenses (self w));
                                           Pyplot.on_screen := false |}]);
                    files := files w |})).
  { unfold generate_report, report_figure, bind, get_self.
    cbv beta iota zeta.
    destruct (expenses (self w)) as [|e l] eqn:El; [contradiction|].
    destruct (totals_by_category (e :: l)) as [|kv d] eqn:Et;
      [now apply totals_of_nonempty_ledger in Et|].
    unfold plt_pie. rewrite Hp.
    unfold modify_plt, Pyplot.figure, Pyplot.pie, Pyplot.set_title.
    cbn [plt self message_boxes files].
    now rewrite !on_current_last. }
  unfold exec. rewrite E. cbn [fst snd plt self files message_boxes].
  split; [reflexivity|].
  rewrite shown_show, open_show. unfold Pyplot.open.
  rewrite map_app. repeat split.
Qed.

End Views.

Lemma cancelled_export_does_nothing_witness :
  ledger Demo.one_expense <> []
  /\ save_as_excel Demo.env "" Demo.one_expense = (Returned tt, Demo.one_expense).
Proof.
  assert (Hl : ledger Demo.one_expense <> []) by (vm_compute; discriminate).
  split; [exact Hl|].
  exact (cancelled_export_does_nothing Demo.env Demo.one_expense Hl).
Defined.

Lemma report_shows_the_totals_witness :
  Pyplot.shown (plt (exec (generate_report Demo.env) Demo.one_expense))
  = [{| Pyplot.figsize := (8, 6)%float; Pyplot.wedges := [12.5%float];
        Pyplot.labels := ["Food"]; Pyplot.autopct := "%1.1f%%";
        Pyplot.startangle := 140; Pyplot.shadow := true;
        Pyplot.title := "Expense Distribution" |}].
Proof.
  assert (Hl : ledger Demo.one_expense <> []) by (vm_compute; discriminate).
  destruct (report_shows_the_totals Demo.env Demo.one_expense Hl eq_refl)
    as (_ & _ & E & _).
  rewrite E. vm_compute. reflexivity.
Defined.

(* ================================================================= *)
(** ** The window's invariants *)

(** [add_expense], seen from outside: either it rejects and the window is
    untouched, or it accepts and the window changes in these places. *)
Lemma add_expense_cases (w : World) :
  (self (exec add_expense w) = self w
   /\ (Py.float (Qt.text (amount_input (self w))) = None
       \/ (others_selected (self w) = true
           /\ effective_category (self w) = "")))
  \/ (exists a,
        Py.float (Qt.text (amount_input (self w))) = Some a
        /\ (others_selected (self w) = true -> effective_category (self w) <> "")
        /\ ledger (exec add_expense w) = ledger w ++ [new_record a (self w)]
        /\ category_input (self (exec add_expense w)) = offered (self w)
        /\ custom_category_input (self (exec add_expense w))
           = Qt.clear (custom_category_input (self w))
        /\ custom_category_label (self (exec add_expense w))
           = custom_category_label (self w)
        /\ amount_input (self (exec add_expense w))
           = Qt.clear (amount_input (self w))
        /\ message_boxes (exec add_expense w) = message_boxes w).
Proof.
  unfold offered, others_selected.
  rewrite <- (item_texts_items (category_input (self w))).
  split_add_expense.
  - right. exists a. apply truthy_true in Hname. repeat split; auto.
  - right. exists a. apply truthy_true in Hname. repeat split; auto.
  - left. apply truthy_false in Hname. split; [reflexivity | right; auto].
  - right. exists a. repeat split; auto. discriminate.
  - left. split; [reflexivity | left; reflexivity].
Qed.

Lemma nth_app_left (l : list string) (x : string) (i : nat) :
  (i < List.length l)%nat -> nth i (l ++ [x]) "" = nth i l "".
Proof. intros H. now apply app_nth1. Qed.

(** A freshly built window is consistent. *)
Lemma init_consistent (today : Qt.QDate) (now : Qt.QDateTime) :
  consistent (__init__ today now).
Proof.
  constructor; cbn.
  - lia.
  - exists []. reflexivity.
  - repeat constructor; cbn; intuition discriminate.
  - repeat constructor; discriminate.
  - reflexivity.
  - reflexivity.
  - reflexivity.
Qed.

(** An accepted add keeps the window consistent. *)
Lemma offered_consistent (s s' : ExpenseTracker) :
  consistent s ->
  (others_selected s = true -> effective_category s <> "") ->
  category_input s' = offered s ->
  custom_category_input s' = Qt.clear (custom_category_input s) ->
  custom_category_label s' = custom_category_label s ->
  consistent s'.
Proof.
  intros [Hi [customs Hp] Hd Hn Hh Hl He] Hname Hc Hci Hcl.
  assert (Hsel : others_selected s' = others_selected s
                 /\ (Qt.currentIndex (category_input s')
                     < Qt.count (category_input s'))%nat).
  { unfold others_selected, Qt.currentText, Qt.itemText, Qt.count.
    rewrite Hc. unfold offered. destruct (_ && _); [|auto].
    cbn [Qt.addItem Qt.items Qt.currentIndex].
    rewrite nth_app_left by exact Hi. rewrite length_app. cbn.
    unfold Qt.count in Hi. split; [reflexivity | lia]. }
  destruct Hsel as [Hsel Hi'].
  constructor.
  - exact Hi'.
  - rewrite Hc. unfold offered. destruct (_ && _); [|now exists customs].
    exists (customs ++ [effective_category s]).
    unfold Qt.addItem. cbn [Qt.items]. rewrite Hp. symmetry. apply app_assoc.
  - rewrite Hc. unfold offered.
    destruct (others_selected s) eqn:Ho; cbn [andb]; [|exact Hd].
    destruct (str_in _ _) eqn:Hin; cbn [negb]; [exact Hd|].
    cbn. apply NoDup_app; [exact Hd | repeat constructor; intros [] | ].
    intros x Hx [<-|[]]. apply str_in_In in Hx. congruence.
  - rewrite Hc. unfold offered.
    destruct (others_selected s) eqn:Ho; cbn [andb]; [|exact Hn].
    destruct (str_in _ _); cbn [negb]; [exact Hn|].
    cbn. apply Forall_app. split; [exact Hn|]. repeat constructor. auto.
  - rewrite Hsel, Hci. exact Hh.
  - rewrite Hsel, Hcl. exact Hl.
  - rewrite Hci. reflexivity.
Qed.

Section Invariants.

Variable env : Env.

(** Every handler keeps the window consistent. *)
Lemma handle_consistent (e : event) (w : World) :
  consistent (self w) -> consistent (self (exec (handle env e) w)).
Proof.
  intros H. destruct e; unfold handle.
  - destruct H. constructor; assumption.
  - destruct H. constructor; assumption.
  - unfold exec, bind, get_self, ret, modify_self. cbv beta iota zeta.
    destruct (Qt.hidden (custom_category_input (self w))) eqn:Hh; [exact H|].
    destruct H as [? ? ? ? Hi ? ?]. constructor; try assumption.
    cbn. intros Hh'. congruence.
  - unfold exec, bind, get_self, ret, modify_self, toggle_custom_category.
    cbv beta iota zeta.
    destruct (_ && _) eqn:Hg; [|exact H].
    apply andb_prop in Hg. destruct Hg as [Hlt _].
    apply Nat.ltb_lt in Hlt.
    destruct H as [? ? ? ? ? ? ?].
    destruct (String.eqb (Qt.itemText (category_input (self w)) index) "Others")
      eqn:Ho; unfold Qt.itemText in Ho;
      constructor; cbn; try assumption;
      unfold others_selected; cbn; try (now rewrite Ho); try reflexivity.
    discriminate.
  - destruct (add_expense_cases w) as [[E _] | (a & _ & Hn & _ & Hc & Hci & Hcl & _)].
    + now rewrite E.
    + exact (offered_consistent _ _ H Hn Hc Hci Hcl).
  - now rewrite save_as_excel_self.
  - now rewrite generate_report_self.
  - destruct H. constructor; assumption.
  - destruct H. constructor; assumption.
Qed.

Lemma run_consistent (events : list event) (w : World) :
  consistent (self w) -> consistent (self (run env events w)).
Proof.
  revert w. induction events as [|e events IH]; intros w H; [exact H|].
  rewrite run_cons. apply IH. now apply handle_consistent.
Qed.

End Invariants.

Lemma effective_category_offered (s : ExpenseTracker) :
  consistent s -> In (effective_category s) (Qt.items (offered s)).
Proof.
  intros H. unfold offered, effective_category, others_selected.
  cbv zeta. destruct (String.eqb _ "Others"); cbn [andb].
  - destruct (str_in _ _) eqn:Hin; cbn [negb].
    + now apply str_in_In.
    + cbn. apply in_or_app. right. now left.
  - apply nth_In. exact (selection_valid s H).
Qed.

Section SessionInvariants.

Variable env : Env.
Variable today : Qt.QDate.
Variable now : Qt.QDateTime.
Variable disk : Py.dict Pandas.Workbook.

(** X5.  The custom-category field follows the dropdown: at every point
    of a session the field and its label are hidden exactly when the
    selected entry is not [Others], and a hidden field holds no text, so
    a name typed for [Others] does not survive switching away. *)
Theorem custom_field_follows_selection (events : list event) :
  let s := self (run env events (launch today now disk)) in
  Qt.hidden (custom_category_input s) = negb (others_selected s)
  /\ Qt.hidden (custom_category_label s) = negb (others_selected s)
  /\ (others_selected s = false -> Qt.text (custom_category_input s) = "").
Proof.
  intros s.
  assert (H : consistent s)
    by (apply run_consistent; apply init_consistent).
  destruct H as [_ _ _ _ Hi Hl He].
  split; [exact Hi | split; [exact Hl|]].
  intros Ho. apply He. now rewrite Hi, Ho.
Qed.


(** X7.  Every record of the ledger has a category that is not empty and
    that is an entry of the dropdown, at every point of a session. *)
Theorem ledger_categories_are_offered (events : list event) :
  let w := run env events (launch today now disk) in
  Forall (fun r => category r <> "" /\ In (category r) (dropdown w)) (ledger w).
Proof.
  intros w.
  assert (J : forall evs w0,
             consistent (self w0) ->
             Forall (fun r => In (category r) (dropdown w0)) (ledger w0) ->
             Forall (fun r => In (category r) (dropdown (run env evs w0)))
                    (ledger (run env evs w0))).
  { induction evs as [|e evs IH]; intros w0 Hc H; [exact H|].
    rewrite run_cons. apply IH; [now apply handle_consistent|].
    assert (K : Forall (fun r => In (category r)
                                    (dropdown (exec (handle env e) w0)))
                       (ledger w0)).
    { revert H. apply Forall_impl. intros r. apply handle_dropdown. }
    destruct e; try (rewrite handle_ledger by discriminate; exact K).
    unfold handle in *.
    destruct (add_expense_cases w0)
      as [[E _] | (a & _ & _ & El & Ho & _)].
    - unfold ledger. rewrite E. exact K.
    - rewrite El. apply Forall_app. split; [exact K|].
      constructor; [|constructor].
      unfold dropdown. rewrite Ho. cbn [new_record category].
      now apply effective_category_offered. }
  assert (Hc : consistent (self w))
    by (apply run_consistent; apply init_consistent).
  assert (Hin : Forall (fun r => In (category r) (dropdown w)) (ledger w)).
  { apply J; [apply init_consistent | constructor]. }
  revert Hin. apply Forall_impl. intros r Hr. split; [|exact Hr].
  exact (proj1 (Forall_forall _ _) (items_named _ Hc) _ Hr).
Qed.

End SessionInvariants.

(** X8.  A second click on "Add Expense" right after the first adds
    nothing: an accepted add empties the amount field (and the custom
    field), so the repeat is rejected for want of an amount, and a
    rejected add is rejected again. *)
Theorem second_click_adds_nothing (w : World) :
  ledger (exec add_expense (exec add_expense w)) = ledger (exec add_expense w)
  /\ (ledger (exec add_expense w) <> ledger w ->
      Qt.text (amount_input (self (exec add_expense w))) = ""
      /\ Qt.text (custom_category_input (self (exec add_expense w))) = "").
Proof.
  destruct (add_expense_cases w)
    as [[E Hwhy] | (a & Hf & _ & El & _ & Hci & _ & Ha & _)].
  - split.
    + rewrite (add_expense_ledger (exec add_expense w)), E.
      destruct Hwhy as [Hf | [Ho Hs]]; [now rewrite Hf|].
      destruct (Py.float _); [|reflexivity].
      unfold others_selected in Ho. unfold effective_category in Hs.
      cbv zeta in Hs. rewrite Ho in Hs. rewrite Ho, Hs. reflexivity.
    + intros Hne. exfalso. apply Hne. unfold ledger. now rewrite E.
  - split.
    + rewrite (add_expense_ledger (exec add_expense w)), Ha. reflexivity.
    + intros _. now rewrite Ha, Hci.
Qed.

(** X11.  "Add Expense" never lets an exception out and never touches
    the files or the figures; it shows a message box exactly when it
    rejects the input: either one record is appended and no box is
    shown, or the window is untouched and one "Input Error" warning is
    shown. *)
Theorem add_expense_outcome (w : World) :
  fst (add_expense w) = Returned tt
  /\ files (exec add_expense w) = files w
  /\ plt (exec add_expense w) = plt w
  /\ ((exists r, ledger (exec add_expense w) = ledger w ++ [r])
      /\ message_boxes (exec add_expense w) = message_boxes w
      \/ self (exec add_expense w) = self w
         /\ exists text,
              message_boxes (exec add_expense w)
              = message_boxes w ++ [{| Qt.icon := Qt.Warning;
                                       Qt.title := "Input Error";
                                       Qt.message := text |}]).
Proof.
  split; [apply add_expense_returns|].
  split; [split_add_expense; reflexivity|].
  split; [split_add_expense; reflexivity|].
  split_add_expense.
  - left. split; [eexists|]; reflexivity.
  - left. split; [eexists|]; reflexivity.
  - right. split; [|eexists]; reflexivity.
  - left. split; [eexists|]; reflexivity.
  - right. split; [|eexists]; reflexivity.
Qed.

(* ================================================================= *)
(** ** More on the report and the export *)

Lemma filter_after_append (ks : list string) (c : string) (l : list string) :
  filter (fun x => negb (str_in x (ks ++ [c]))) l
  = filter (fun x => negb (str_in x ks))
           (filter (fun x => negb (String.eqb x c)) l).
Proof.
  induction l as [|x l IH]; [reflexivity|]. cbn [filter].
  unfold str_in at 1. rewrite existsb_app. cbn [existsb].
  rewrite orb_false_r. fold (str_in x ks).
  destruct (String.eqb x c) eqn:E; cbn [negb filter].
  - rewrite orb_true_r. cbn [negb]. exact IH.
  - rewrite orb_false_r. destruct (str_in x ks); cbn [negb]; now rewrite IH.
Qed.

Lemma filter_known (ks : list string) (c : string) (l : list string) :
  str_in c ks = true ->
  filter (fun x => negb (str_in x ks))
         (filter (fun x => negb (String.eqb x c)) l)
  = filter (fun x => negb (str_in x ks)) l.
Proof.
  intros Hc. induction l as [|x l IH]; [reflexivity|]. cbn [filter].
  destruct (String.eqb_spec x c) as [->|Hx]; cbn [negb filter].
  - now rewrite Hc.
  - now rewrite IH.
Qed.

(** The keys the loop leaves, started from any dict: the keys it had,
    then the new categories in order of first appearance. *)
Lemma tally_keys (l : list expense) (d : Py.dict float) :
  Py.keys (fold_left tally l d)
  = Py.keys d ++ filter (fun c => negb (str_in c (Py.keys d)))
                        (first_occurrences (map category l)).
Proof.
  revert d. induction l as [|e l IH]; intros d.
  - cbn. now rewrite app_nil_r.
  - cbn [fold_left map first_occurrences filter]. rewrite IH.
    unfold tally. cbv zeta. rewrite keys_setitem.
    destruct (str_in (category e) (Py.keys d)) eqn:Hin; cbn [negb].
    + now rewrite filter_known.
    + rewrite <- app_assoc. cbn [app]. now rewrite filter_after_append.
Qed.

(** X10.  The labels of the pie are the distinct categories of the
    ledger in the order in which they first appear, and there is one
    wedge size per label. *)
Theorem report_labels_in_first_appearance_order (l : list expense) :
  Py.keys (totals_by_category l) = first_occurrences (map category l)
  /\ List.length (Py.values (totals_by_category l))
     = List.length (Py.keys (totals_by_category l)).
Proof.
  split.
  - unfold totals_by_category. rewrite tally_keys. cbn [Py.keys map app].
    induction (first_occurrences (map category l)) as [|c cs IH];
      [reflexivity|].
    cbn [filter]. change (str_in c []) with false. cbn [negb].
    now rewrite IH.
  - unfold Py.values, Py.keys. now rewrite !length_map.
Qed.

Lemma export_row_injective (l l' : list expense) :
  map export_row l = map export_row l' -> l = l'.
Proof.
  revert l'. induction l as [|e l IH]; intros [|e' l'] H;
    try discriminate H; [reflexivity|].
  cbn [map] in H.
  assert (He : export_row e = export_row e') by congruence.
  assert (Hl : map export_row l = map export_row l') by congruence.
  f_equal; [|now apply IH].
  destruct e, e'. unfold export_row in He. cbn in He. congruence.
Qed.

(** X13.  The export is lossless: two ledgers that give the same sheet
    are the same ledger, record by record. *)
Theorem export_is_lossless (l l' : list expense) :
  exported_sheet l = exported_sheet l' -> l = l'.
Proof.
  unfold exported_sheet.
  destruct l as [|e l], l' as [|e' l']; [reflexivity | | |].
  - rewrite of_records_expenses. discriminate.
  - rewrite of_records_expenses. discriminate.
  - rewrite !of_records_expenses. intros H.
    apply (f_equal (@tl _)) in H.
    exact (export_row_injective (e :: l) (e' :: l') H).
Qed.

Lemma export_is_lossless_witness :
  exported_sheet (ledger Demo.one_expense)
  = exported_sheet [{| amount := 12.5; category := "Food";
                       date := "07/03/2024"; time := "23:59:58" |}]
  /\ ledger Demo.one_expense
     = [{| amount := 12.5; category := "Food";
           date := "07/03/2024"; time := "23:59:58" |}].
Proof.
  assert (H : exported_sheet (ledger Demo.one_expense)
              = exported_sheet [{| amount := 12.5; category := "Food";
                                   date := "07/03/2024"; time := "23:59:58" |}])
    by (vm_compute; reflexivity).
  split; [exact H | exact (export_is_lossless _ _ H)].
Defined.

Section Failures.

Variable env : Env.

(** X9.  When [plt.pie] refuses the totals, the exception leaves
    "Generate Report": nothing catches it; no message box is shown,
    nothing is displayed, and the window and the files are as before. *)
Theorem report_failure_escapes (e : Py.exn) (w : World) :
  ledger w <> [] ->
  pie_error env (Py.values (totals_by_category (ledger w))) = Some e ->
  fst (generate_report env w) = Raised e
  /\ message_boxes (exec (generate_report env) w) = message_boxes w
  /\ Pyplot.shown (plt (exec (generate_report env) w)) = Pyplot.shown (plt w)
  /\ files (exec (generate_report env) w) = files w
  /\ self (exec (generate_report env) w) = self w.
Proof.
  unfold ledger, exec. intros Hl Hp.
  unfold generate_report, bind, get_self. cbv beta iota zeta.
  destruct (expenses (self w)) as [|x l] eqn:El; [contradiction|].
  destruct (totals_by_category (x :: l)) as [|kv d] eqn:Et;
    [now apply totals_of_nonempty_ledger in Et|].
  unfold plt_pie. rewrite Hp. cbn [bind modify_plt raise fst snd plt self
                                     files message_boxes].
  repeat split. unfold Pyplot.shown, Pyplot.figure.
  rewrite filter_app. cbn. now rewrite app_nil_r.
Qed.

End Failures.

Lemma report_failure_escapes_witness :
  ledger Cases.refund <> []
  /\ fst (generate_report Demo.env Cases.refund) = Raised Py.ValueError
  /\ message_boxes (exec (generate_report Demo.env) Cases.refund) = [].
Proof.
  assert (Hl : ledger Cases.refund <> []) by (vm_compute; discriminate).
  assert (Hp : pie_error Demo.env
                 (Py.values (totals_by_category (ledger Cases.refund)))
               = Some Py.ValueError) by (vm_compute; reflexivity).
  destruct (report_failure_escapes Demo.env Py.ValueError Cases.refund Hl Hp)
    as (Hr & Hm & _).
  split; [exact Hl | split; [exact Hr|]]. rewrite Hm. reflexivity.
Defined.

